(** * obsidian-ginie: the completion client [OpenAIAPI.query]

    A shallow embedding of the request/response bridge of the plugin
    (class [OpenAIAPI] of [src/main.ts] and of its near-duplicate variant),
    together with the part of the JavaScript runtime that the method
    touches: JSON values, property reads, [JSON.stringify], [new Error],
    template literals, [fetch] and [Response.json].

    Strings are [string]s read as the UTF-8 bytes of a well-formed
    JavaScript string (no lone surrogate).
    An [async] function is a computation in the monad [M] below: a promise
    that resolves is [Resolved v], one that rejects is [Rejected e]. *)

From Stdlib Require Import String Ascii List Arith Bool Lia.
Import ListNotations.
Open Scope string_scope.

Set Implicit Arguments.
Set Warnings "-register-all".

(* ================================================================= *)
(** ** JavaScript values *)

Module JS.

(** What [JSON.parse] can produce.  A number is kept as its canonical
    rendering ([Number::toString]); the method never computes with one.
    An object is the list of its own properties in insertion order, at most
    one entry per key. *)
Inductive json : Type :=
| JNull
| JBool (b : bool)
| JNum (repr : string)
| JStr (s : string)
| JArr (items : list json)
| JObj (fields : list (string * json)).

(** Reading a property can also give [undefined], which no JSON text
    denotes. *)
Inductive jsval : Type :=
| VUndefined
| VJson (j : json).

(** A thrown value: every exception met here is an [Error] object or an
    instance of one of its subclasses; [name] is the class ([Error],
    [TypeError], [SyntaxError]), [message] its [.message]. *)
Record JsError : Type := mkJsError { name : string; message : string }.

(** How a promise settles. *)
Inductive Completion (A : Type) : Type :=
| Resolved (a : A)
| Rejected (e : JsError).
Arguments Rejected {A} e.

(** The property names that [query] reads: [.error], [.message],
    [.choices], [[0]] and [.content].  None of them is inherited from
    [Object.prototype], [Array.prototype] or the wrapper prototypes, so a
    read is decided by the own properties. *)
Inductive Key : Type := K_error | K_message | K_choices | K_0 | K_content.

Definition key_name (k : Key) : string :=
  match k with
  | K_error => "error"
  | K_message => "message"
  | K_choices => "choices"
  | K_0 => "0"
  | K_content => "content"
  end.

Fixpoint assoc (k : string) (fs : list (string * json)) : option json :=
  match fs with
  | [] => None
  | (k', v) :: rest => if String.eqb k k' then Some v else assoc k rest
  end.

Definition of_option (o : option json) : jsval :=
  match o with
  | Some j => VJson j
  | None => VUndefined
  end.

(** The message V8 (the engine of the host application) gives to the
    [TypeError] of a property read on [undefined] or [null]. *)
Definition cannot_read (base : string) (k : Key) : JsError :=
  mkJsError "TypeError"
    ("Cannot read properties of " ++ base ++ " (reading '" ++ key_name k ++ "')").

(** [v.k] (and [v[0]] for [K_0]). *)
Definition getProp (v : jsval) (k : Key) : Completion jsval :=
  match v with
  | VUndefined => Rejected (cannot_read "undefined" k)
  | VJson JNull => Rejected (cannot_read "null" k)
  | VJson (JObj fs) => Resolved (of_option (assoc (key_name k) fs))
  | VJson (JArr items) =>
      Resolved (match k with
                | K_0 => of_option (nth_error items 0)
                | _ => VUndefined
                end)
  | VJson (JStr s) =>
      Resolved (match k, s with
                | K_0, String c _ => VJson (JStr (String c ""))
                | _, _ => VUndefined
                end)
  | VJson (JBool _) | VJson (JNum _) => Resolved VUndefined
  end.

Fixpoint join (sep : string) (l : list string) : string :=
  match l with
  | [] => ""
  | [s] => s
  | s :: rest => s ++ sep ++ join sep rest
  end.

(** The renderings of the elements of an array, in order: the first one
    that throws ends the whole. *)
Fixpoint all_resolved (l : list (Completion string)) : Completion (list string) :=
  match l with
  | [] => Resolved []
  | Rejected e :: _ => Rejected e
  | Resolved s :: rest =>
      match all_resolved rest with
      | Resolved ss => Resolved (s :: ss)
      | Rejected e => Rejected e
      end
  end.

(** The [TypeError] of an object that has no primitive rendering. *)
Definition cannot_convert : JsError :=
  mkJsError "TypeError" "Cannot convert object to primitive value".

(** [ToString] on a parsed value.  An array is joined with commas, its
    [null] elements rendered empty.  An object is ["[object Object]"], the
    result of the inherited [toString]; an own property [toString] hides
    that method, is not callable, and the conversion throws. *)
Fixpoint ToString (j : json) : Completion string :=
  match j with
  | JNull => Resolved "null"
  | JBool true => Resolved "true"
  | JBool false => Resolved "false"
  | JNum r => Resolved r
  | JStr s => Resolved s
  | JArr items =>
      match all_resolved
              (map (fun x => match x with JNull => Resolved "" | _ => ToString x end)
                   items) with
      | Resolved ss => Resolved (join "," ss)
      | Rejected e => Rejected e
      end
  | JObj fields =>
      match assoc "toString" fields with
      | Some _ => Rejected cannot_convert
      | None => Resolved "[object Object]"
      end
  end.

(** [new Error(v)]: the message is [ToString(v)] unless [v] is
    [undefined], in which case the instance has no own message and
    [.message] reads the prototype's empty string. *)
Definition new_Error (v : jsval) : Completion JsError :=
  match v with
  | VUndefined => Resolved (mkJsError "Error" "")
  | VJson j =>
      match ToString j with
      | Resolved s => Resolved (mkJsError "Error" s)
      | Rejected e => Rejected e
      end
  end.

(** *** Decimal rendering of a status code *)

Definition digit_char (d : nat) : ascii := ascii_of_nat (48 + d).

Fixpoint dec_go (fuel n : nat) (acc : string) : string :=
  match fuel with
  | O => acc
  | S fuel' =>
      let acc' := String (digit_char (n mod 10)) acc in
      if (n / 10 =? 0)%nat then acc' else dec_go fuel' (n / 10) acc'
  end.

(** [`${n}`] for a non-negative integer. *)
Definition nat_to_string (n : nat) : string := dec_go (S n) n "".

(** *** [JSON.stringify] *)

Definition hex_char (d : nat) : ascii :=
  if (d <? 10)%nat then ascii_of_nat (48 + d) else ascii_of_nat (87 + d).

Definition quote_char (c : ascii) : string :=
  let n := nat_of_ascii c in
  if (n =? 8)%nat then "\b"
  else if (n =? 9)%nat then "\t"
  else if (n =? 10)%nat then "\n"
  else if (n =? 12)%nat then "\f"
  else if (n =? 13)%nat then "\r"
  else if (n =? 34)%nat then String "\" (String c "")
  else if (n =? 92)%nat then "\\"
  else if (n <? 32)%nat then
    "\u00" ++ String (hex_char (n / 16)) (String (hex_char (n mod 16)) "")
  else String c "".

Fixpoint quote_body (s : string) : string :=
  match s with
  | EmptyString => ""
  | String c rest => quote_char c ++ quote_body rest
  end.

Definition dquote : string := String (ascii_of_nat 34) "".

(** [QuoteJSONString]. *)
Definition quote (s : string) : string := dquote ++ quote_body s ++ dquote.

Definition non_finite (r : string) : bool :=
  String.eqb r "Infinity" || String.eqb r "-Infinity" || String.eqb r "NaN".

Fixpoint JSON_stringify (j : json) : string :=
  match j with
  | JNull => "null"
  | JBool true => "true"
  | JBool false => "false"
  | JNum r => if non_finite r then "null" else r
  | JStr s => quote s
  | JArr items => "[" ++ join "," (map JSON_stringify items) ++ "]"
  | JObj fields =>
      "{" ++ join "," (map (fun kv => quote (fst kv) ++ ":" ++ JSON_stringify (snd kv))
                           fields) ++ "}"
  end.

End JS.

(* ================================================================= *)
(** ** Network and asynchronous computations *)

Module Async.
Import JS.

(** The second argument of [fetch]. *)
Record RequestInit : Type := mkRequestInit {
  method : string;
  headers : list (string * string);
  body : string
}.

(** One outbound request: the two arguments of one [fetch] call. *)
Record HttpRequest : Type := mkHttpRequest {
  url : string;
  init : RequestInit
}.

(** The [Response] a [fetch] promise resolves with.  [json_result] is how
    the promise of [response.json()] settles: the parsed body, or the
    exception of a body that is not JSON. *)
Record Response : Type := mkResponse {
  ok : bool;
  status : nat;
  json_result : Completion json
}.

(** A response as the Fetch standard builds it: [ok] holds exactly for a
    status from 200 to 299. *)
Definition Response_of (st : nat) (parsed : Completion json) : Response :=
  mkResponse ((200 <=? st)%nat && (st <=? 299)%nat) st parsed.

(** What is behind [fetch], the checks of the runtime and the remote side
    together: given the calls of [fetch] made so far and the new one, how
    the promise of the new call settles.  A rejection is a request that the
    runtime refuses or a failure of the network; [Fetch.network_fetch]
    below builds such a function from a network as the Fetch standard
    has it. *)
Definition Transport : Type := list HttpRequest -> HttpRequest -> Completion Response.

(** A transport is deterministic when its answer depends on the request
    alone. *)
Definition deterministic (net : Transport) : Prop :=
  forall h h' req, net h req = net h' req.

(** What a method can see and change: the object it is called on, and in
    [sent] the calls of [fetch] made so far, each with the arguments it was
    given.  Which of them put a request on the wire, and in which form,
    is [Fetch.issued]. *)
Record World (Obj : Type) : Type := mkWorld {
  this : Obj;
  sent : list HttpRequest
}.

(** An asynchronous computation: from a world to a settled promise and
    the world it leaves. *)
Definition M (Obj A : Type) : Type := World Obj -> Completion A * World Obj.

Section Ops.
Variables Obj : Type.

Definition ret {A} (a : A) : M Obj A := fun w => (Resolved a, w).

Definition bind {A B} (m : M Obj A) (k : A -> M Obj B) : M Obj B :=
  fun w =>
    match m w with
    | (Resolved a, w') => k a w'
    | (Rejected e, w') => (Rejected e, w')
    end.

Definition throw {A} (e : JsError) : M Obj A := fun w => (Rejected e, w).

(** [try { m } catch (error) { h error }]. *)
Definition try_catch {A} (m : M Obj A) (h : JsError -> M Obj A) : M Obj A :=
  fun w =>
    match m w with
    | (Resolved a, w') => (Resolved a, w')
    | (Rejected e, w') => h e w'
    end.

(** An expression that touches neither the object nor the network. *)
Definition lift {A} (c : Completion A) : M Obj A := fun w => (c, w).

(** [this.f]. *)
Definition read {A} (f : Obj -> A) : M Obj A := fun w => (Resolved (f (this w)), w).

(** [await fetch(url, init)]: the call is recorded with its arguments, and
    what is behind [fetch] settles it. *)
Definition fetch (net : Transport) (u : string) (i : RequestInit) : M Obj Response :=
  fun w =>
    let req := mkHttpRequest u i in
    (net (sent w) req, mkWorld (this w) (sent w ++ [req])).

(** [await response.json()]. *)
Definition Response_json (r : Response) : M Obj json := lift (json_result r).
End Ops.

Arguments ret {Obj A} a.
Arguments bind {Obj A B} m k.
Arguments throw {Obj A} e.
Arguments try_catch {Obj A} m h.
Arguments lift {Obj A} c.
Arguments read {Obj A} f.
Arguments fetch {Obj} net u i.
Arguments Response_json {Obj} r.

End Async.

Declare Scope async_scope.
Delimit Scope async_scope with async.
Notation "x <- m ;; k" := (Async.bind m (fun x => k))
  (at level 61, m at next level, right associativity) : async_scope.

(* ================================================================= *)
(** ** [src/main.ts] *)

Module Main.
Import JS Async.

(** [interface MyPluginSettings]. *)
Record MyPluginSettings : Type := mkSettings {
  openai_api_key : string;
  initial_prompt : string;
  settings_model : string
}.

Definition DEFAULT_SETTINGS : MyPluginSettings :=
  {| openai_api_key := "sk-...";
     initial_prompt := "you are a helpful and smart assistant. you are given a text and you need to answer the question based on the text.";
     settings_model := "gpt-4o-mini" |}.

(** [class OpenAIAPI]: its three private fields. *)
Record OpenAIAPI : Type := mkOpenAIAPI {
  apiKey : string;
  model : string;
  initialPrompt : string
}.

(** [constructor(apiKey, model, initialPrompt)]. *)
Definition constructor (apiKey model initialPrompt : string) : OpenAIAPI :=
  {| apiKey := apiKey; model := model; initialPrompt := initialPrompt |}.

(** The client a modal builds: [new OpenAIAPI(plugin.settings.openai_api_key,
    plugin.settings.model, plugin.settings.initial_prompt)]. *)
Definition client_of_settings (s : MyPluginSettings) : OpenAIAPI :=
  constructor (openai_api_key s) (settings_model s) (initial_prompt s).

Section Query.
Variable net : Transport.
Local Open Scope async_scope.

(** [async query(context, question)]. *)
Definition query (context question : string) : M OpenAIAPI jsval :=
  this_apiKey <- read apiKey ;;
  this_model <- read model ;;
  this_initialPrompt <- read initialPrompt ;;
  response <- fetch net "https://api.openai.com/v1/chat/completions"
    {| method := "POST";
       headers := [ ("Content-Type", "application/json");
                    ("Authorization", "Bearer " ++ this_apiKey) ];
       body := JSON_stringify
         (JObj [ ("model", JStr this_model);
                 ("messages", JArr [
                    JObj [ ("role", JStr "system");
                           ("content", JStr this_initialPrompt) ];
                    JObj [ ("role", JStr "system");
                           ("content", JStr ("context: " ++ context)) ];
                    JObj [ ("role", JStr "user");
                           ("content", JStr question) ] ]) ]) |} ;;
  if negb (ok response) then
    errorData <- try_catch (Response_json response)
      (fun error =>
         err <- lift (new_Error
           (VJson (JStr ("HTTP error! status: " ++ nat_to_string (status response))))) ;;
         throw err) ;;
    errorData_error <- lift (getProp (VJson errorData) K_error) ;;
    errorData_error_message <- lift (getProp errorData_error K_message) ;;
    err <- lift (new_Error errorData_error_message) ;;
    throw err
  else
    data <- Response_json response ;;
    choices <- lift (getProp (VJson data) K_choices) ;;
    choice0 <- lift (getProp choices K_0) ;;
    msg <- lift (getProp choice0 K_message) ;;
    content <- lift (getProp msg K_content) ;;
    ret content.
End Query.

End Main.

(* ================================================================= *)
(** ** The second variant of the plugin (rendered markdown and copy button) *)

Module Variant.
Import JS Async.

(** [class OpenAIAPI] of the variant. *)
Record OpenAIAPI : Type := mkOpenAIAPI {
  apiKey : string;
  model : string;
  initialPrompt : string
}.

Definition constructor (apiKey model initialPrompt : string) : OpenAIAPI :=
  {| apiKey := apiKey; model := model; initialPrompt := initialPrompt |}.

Section Query.
Variable net : Transport.
Local Open Scope async_scope.

(** [async query(context, question)] of the variant. *)
Definition query (context question : string) : M OpenAIAPI jsval :=
  this_apiKey <- read apiKey ;;
  this_model <- read model ;;
  this_initialPrompt <- read initialPrompt ;;
  response <- fetch net "https://api.openai.com/v1/chat/completions"
    {| method := "POST";
       headers := [ ("Content-Type", "application/json");
                    ("Authorization", "Bearer " ++ this_apiKey) ];
       body := JSON_stringify
         (JObj [ ("model", JStr this_model);
                 ("messages", JArr [
                    JObj [ ("role", JStr "system");
                           ("content", JStr this_initialPrompt) ];
                    JObj [ ("role", JStr "system");
                           ("content", JStr ("context: " ++ context)) ];
                    JObj [ ("role", JStr "user");
                           ("content", JStr question) ] ]) ]) |} ;;
  if negb (ok response) then
    errorData <- try_catch (Response_json response)
      (fun error =>
         err <- lift (new_Error
           (VJson (JStr ("HTTP error! status: " ++ nat_to_string (status response))))) ;;
         throw err) ;;
    errorData_error <- lift (getProp (VJson errorData) K_error) ;;
    errorData_error_message <- lift (getProp errorData_error K_message) ;;
    err <- lift (new_Error errorData_error_message) ;;
    throw err
  else
    data <- Response_json response ;;
    choices <- lift (getProp (VJson data) K_choices) ;;
    choice0 <- lift (getProp choices K_0) ;;
    msg <- lift (getProp choice0 K_message) ;;
    content <- lift (getProp msg K_content) ;;
    ret content.
End Query.

End Variant.

(* ================================================================= *)
(** ** The vocabulary of the specification, and readings of a body *)

Module Spec.
Import JS Async.

(** A role-tagged message of a chat-completion request. *)
Record Message : Type := mkMessage { role : string; content : string }.

(** The Request of the data model: a model identifier and an ordered
    sequence of messages. *)
Record Request : Type := mkRequest {
  request_model : string;
  messages : list Message
}.

Definition Message_to_json (m : Message) : json :=
  JObj [ ("role", JStr (role m)); ("content", JStr (content m)) ].

(** The wire shape of a Request: [model], then the [messages] array. *)
Definition Request_to_json (r : Request) : json :=
  JObj [ ("model", JStr (request_model r));
         ("messages", JArr (map Message_to_json (messages r))) ].

(** The three messages in their fixed order: instruction, grounding
    context, user query. *)
Definition build_Request (model systemPrompt context question : string) : Request :=
  {| request_model := model;
     messages := [ mkMessage "system" systemPrompt;
                   mkMessage "system" ("context: " ++ context);
                   mkMessage "user" question ] |}.

(** The provider's chat-completion endpoint. *)
Definition endpoint : string := "https://api.openai.com/v1/chat/completions".

(** The one POST of a call: JSON content type, bearer credential, and the
    serialized Request as body. *)
Definition post_of (credential : string) (r : Request) : HttpRequest :=
  {| url := endpoint;
     init := {| method := "POST";
                headers := [ ("Content-Type", "application/json");
                             ("Authorization", "Bearer " ++ credential) ];
                body := JSON_stringify (Request_to_json r) |} |}.

(** The request that a client with configuration [c] sends for
    [(context, question)]. *)
Definition post_for (c : Main.OpenAIAPI) (context question : string) : HttpRequest :=
  post_of (Main.apiKey c)
          (build_Request (Main.model c) (Main.initialPrompt c) context question).

(** [needle] occurs in [hay]. *)
Definition embeds (needle hay : string) : Prop :=
  exists pre post, hay = pre ++ needle ++ post.

(** [undefined] or [null]: the values on which a property read faults. *)
Definition nullish (v : jsval) : bool :=
  match v with
  | VUndefined | VJson JNull => true
  | _ => false
  end.

(** How the fault of a read on a nullish value names that value. *)
Definition fault_base (v : jsval) : string :=
  match v with
  | VJson JNull => "null"
  | _ => "undefined"
  end.

(** [v?.k]: the property if [v] can be read, [undefined] otherwise. *)
Definition opt_get (v : jsval) (k : Key) : jsval :=
  match getProp v k with
  | Resolved x => x
  | Rejected _ => VUndefined
  end.

(** [data?.choices?.[0]?.message] and [data?.choices?.[0]?.message?.content]:
    the parts of the expected shape of a success body. *)
Definition message_of (data : json) : jsval :=
  opt_get (opt_get (opt_get (VJson data) K_choices) K_0) K_message.

Definition content_of (data : json) : jsval :=
  opt_get (message_of data) K_content.

(** A success body lacks the expected shape when following
    choices, first choice, message, content finds nothing. *)
Definition lacks_expected_shape (data : json) : bool :=
  match content_of data with
  | VUndefined => true
  | VJson _ => false
  end.

(** The chain [data.choices[0].message.content], read step by step. *)
Definition read_content (data : json) : Completion jsval :=
  match getProp (VJson data) K_choices with
  | Rejected e => Rejected e
  | Resolved choices =>
      match getProp choices K_0 with
      | Rejected e => Rejected e
      | Resolved choice0 =>
          match getProp choice0 K_message with
          | Rejected e => Rejected e
          | Resolved msg => getProp msg K_content
          end
      end
  end.

(** [throw new Error(v)]: the promise rejects with the new [Error], or
    with what its construction threw. *)
Definition throw_new_Error (v : jsval) : Completion jsval :=
  match new_Error v with
  | Resolved err => Rejected err
  | Rejected e => Rejected e
  end.

(** [errorData?.error]: the provider's error object, if any. *)
Definition error_of (errorData : json) : jsval := opt_get (VJson errorData) K_error.

Definition is_digit (c : ascii) : bool :=
  let n := nat_of_ascii c in ((48 <=? n) && (n <=? 57))%nat.

Fixpoint has_digit (s : string) : bool :=
  match s with
  | EmptyString => false
  | String c rest => is_digit c || has_digit rest
  end.

Definition head_digit (s : string) : bool :=
  match s with
  | EmptyString => false
  | String c _ => is_digit c
  end.

(** A transport that answers every request with the same response. *)
Definition always (r : Response) : Transport := fun _ _ => Resolved r.

End Spec.

(* ================================================================= *)
(** ** Sample responses *)

Module Samples.
Import JS Async Spec.

(** A client built from the default settings, before any request. *)
Definition w0 : World Main.OpenAIAPI :=
  mkWorld (Main.client_of_settings Main.DEFAULT_SETTINGS) [].

(** [{"choices":[{"message":{"content":"42"}}]}] *)
Definition body_42 : json :=
  JObj [ ("choices", JArr [ JObj [ ("message", JObj [ ("content", JStr "42") ]) ] ]) ].

(** [{"id":"cmpl-1"}]: no [choices]. *)
Definition body_no_choices : json := JObj [ ("id", JStr "cmpl-1") ].

(** [{"choices":[{"message":{"role":"assistant"}}]}]: no [content]. *)
Definition body_no_content : json :=
  JObj [ ("choices", JArr [ JObj [ ("message", JObj [ ("role", JStr "assistant") ]) ] ]) ].

(** [{"error":{"message":"invalid_api_key"}}] *)
Definition body_invalid_api_key : json :=
  JObj [ ("error", JObj [ ("message", JStr "invalid_api_key") ]) ].

(** [{"status":"down"}] *)
Definition body_down : json := JObj [ ("status", JStr "down") ].

(** The rejection of [response.json()] on a body that is an HTML page. *)
Definition not_json : JsError :=
  mkJsError "SyntaxError" "Unexpected token '<'".

End Samples.

(* ================================================================= *)
(** ** [src/main.ts]: settings, settings tab and modal *)

Module Plugin.
Import JS Async.

(** *** Settings objects *)

(** An object of type [MyPluginSettings]: string-valued own properties
    (the index signature of the interface), in insertion order. *)
Definition Settings : Type := list (string * string).

(** The own property [k] of [o]; [None]: [o] has no own property of that
    name.  For the names that the plugin reads ([openai_api_key], [model],
    [initial_prompt], [visibility], [display]) nothing is inherited, so this
    is [o[k]], with [None] for [undefined]. *)
Fixpoint prop_get (o : Settings) (k : string) : option string :=
  match o with
  | [] => None
  | (k', v) :: rest => if String.eqb k k' then Some v else prop_get rest k
  end.

(** [o[k] = v]: an existing property keeps its place, a new one goes last. *)
Fixpoint prop_set (o : Settings) (k v : string) : Settings :=
  match o with
  | [] => [(k, v)]
  | (k', v') :: rest =>
      if String.eqb k k' then (k', v) :: rest else (k', v') :: prop_set rest k v
  end.

(** One source of [Object.assign]: its properties are assigned to the
    target one after the other.  The assignment of [__proto__] goes to the
    setter that the target inherits, which ignores a string: no property
    is made.  (The order of the list is the order of the model; reads by
    name, which is all the plugin does, do not depend on it.) *)
Fixpoint assign_from (target source : Settings) : Settings :=
  match source with
  | [] => target
  | (k, v) :: rest =>
      if String.eqb k "__proto__" then assign_from target rest
      else assign_from (prop_set target k v) rest
  end.

(** [Object.assign(target, ...sources)]; a [null] source is skipped. *)
Definition Object_assign (target : Settings) (sources : list (option Settings)) : Settings :=
  fold_left (fun t s => match s with
                        | Some o => assign_from t o
                        | None => t
                        end) sources target.

Definition DEFAULT_SETTINGS : Settings :=
  [ ("openai_api_key", "sk-...");
    ("initial_prompt", "you are a helpful and smart assistant. you are given a text and you need to answer the question based on the text.");
    ("model", "gpt-4o-mini") ].

(** [class MyPlugin]: the settings in memory and the plugin's data file
    ([None]: nothing saved yet, [loadData()] gives [null]). *)
Record MyPlugin : Type := mkMyPlugin {
  settings : Settings;
  data : option Settings
}.

(** [loadSettings()]. *)
Definition loadSettings (p : MyPlugin) : MyPlugin :=
  {| settings := Object_assign [] [Some DEFAULT_SETTINGS; data p];
     data := data p |}.

(** [saveSettings()]. *)
Definition saveSettings (p : MyPlugin) : MyPlugin :=
  {| settings := settings p; data := Some (settings p) |}.

(** [onload()] on a plugin whose data file holds [stored]: the settings
    are loaded, then the command and the settings tab registered. *)
Definition onload (stored : option Settings) : MyPlugin :=
  {| settings := Object_assign [] [Some DEFAULT_SETTINGS; stored];
     data := stored |}.

(** *** [class SampleSettingTab] *)

(** The three [onChange] handlers of [display()]. *)
Definition onChange_openai_api_key (value : string) (p : MyPlugin) : MyPlugin :=
  saveSettings {| settings := prop_set (settings p) "openai_api_key" value;
                  data := data p |}.

Definition onChange_initial_prompt (value : string) (p : MyPlugin) : MyPlugin :=
  saveSettings {| settings := prop_set (settings p) "initial_prompt" value;
                  data := data p |}.

Definition onChange_model (value : string) (p : MyPlugin) : MyPlugin :=
  saveSettings {| settings := prop_set (settings p) "model" value;
                  data := data p |}.

(** What the user does in the settings tab. *)
Inductive Edit : Type :=
| EditApiKey (value : string)
| EditInitialPrompt (value : string)
| EditModel (value : string).

Definition apply_edit (e : Edit) (p : MyPlugin) : MyPlugin :=
  match e with
  | EditApiKey v => onChange_openai_api_key v p
  | EditInitialPrompt v => onChange_initial_prompt v p
  | EditModel v => onChange_model v p
  end.

Definition apply_edits (es : list Edit) (p : MyPlugin) : MyPlugin :=
  fold_left (fun q e => apply_edit e q) es p.

(** Restarting the application: the plugin is loaded again from its data
    file. *)
Definition reload (p : MyPlugin) : MyPlugin := onload (data p).

(** *** [class AskLLMModal] *)

(** The client the constructor of the modal builds from the settings of
    the plugin.  A setting that is not defined would give the client an
    [undefined] field, which the string-typed fields exclude: [None]. *)
Definition AskLLMModal_openai (p : MyPlugin) : option Main.OpenAIAPI :=
  match prop_get (settings p) "openai_api_key",
        prop_get (settings p) "model",
        prop_get (settings p) "initial_prompt" with
  | Some k, Some m, Some i => Some (Main.constructor k m i)
  | _, _, _ => None
  end.

(** An inline style: the CSS properties set so far. *)
Definition Style : Type := list (string * string).

Record DivEl : Type := mkDivEl { div_cls : string; div_style : Style }.

(** A text area; [value] is its raw value, as typed or as last
    assigned. *)
Record TextAreaEl : Type := mkTextAreaEl {
  placeholder : string;
  value : string;
  readOnly : bool;
  style : Style
}.

(** Line breaks as the [value] getter gives them: a carriage return with
    its line feed, and every other carriage return, becomes one line
    feed. *)
Fixpoint normalize_newlines (s : string) : string :=
  match s with
  | EmptyString => EmptyString
  | String c rest =>
      if (nat_of_ascii c =? 13)%nat then
        String (ascii_of_nat 10)
          match rest with
          | EmptyString => EmptyString
          | String d rest' =>
              if (nat_of_ascii d =? 10)%nat then normalize_newlines rest'
              else normalize_newlines rest
          end
      else String c (normalize_newlines rest)
  end.

(** Reading [t.value]. *)
Definition api_value (t : TextAreaEl) : string := normalize_newlines (value t).

Record ButtonEl : Type := mkButtonEl { text : string }.

(** [createDiv(cls)], [createEl('textarea')]. *)
Definition createDiv (cls : string) : DivEl := mkDivEl cls [].
Definition createTextArea : TextAreaEl := mkTextAreaEl "" "" false [].

(** The elements [onOpen] creates under [contentEl]. *)
Record UI : Type := mkUI {
  inputContainer : DivEl;
  textInput : TextAreaEl;
  outputContainer : DivEl;
  outputArea : TextAreaEl;
  buttonContainer : DivEl;
  submitButton : ButtonEl
}.

Inductive ConsoleEntry : Type :=
| console_log (label : string) (arg : string)
| console_error (label : string) (arg : JsError).

(** An open modal and what it shows: its client, the document text its
    handlers captured, its elements, and the notices and console lines
    produced so far. *)
Record Session : Type := mkSession {
  openai : Main.OpenAIAPI;
  current_file_content : string;
  ui : UI;
  notices : list string;
  console : list ConsoleEntry
}.

(** [!current_file_content] for [markdownView?.data]: no active markdown
    view ([undefined]) and an empty document are both falsy. *)
Definition falsy (content : option string) : bool :=
  match content with
  | None => true
  | Some EmptyString => true
  | Some (String _ _) => false
  end.

(** [onOpen()] for a modal with client [client], when the data of the
    active markdown view is [active] and [notes], [lines] have been shown
    and logged before.  [None]: the modal closed itself and its content
    is empty. *)
Definition onOpen (client : Main.OpenAIAPI) (active : option string)
    (notes : list string) (lines : list ConsoleEntry) : option Session :=
  match active with
  | None => None
  | Some EmptyString => None
  | Some content =>
      let inputContainer := createDiv "input-container" in
      let inputContainer :=
        mkDivEl (div_cls inputContainer)
                (prop_set (div_style inputContainer) "marginBottom" "5px") in
      let textInput := createTextArea in
      let textInput := mkTextAreaEl "Enter your prompt here..." (value textInput)
                                    (readOnly textInput) (style textInput) in
      let textInput := mkTextAreaEl (placeholder textInput) (value textInput)
                                    (readOnly textInput)
                                    (prop_set (style textInput) "width" "100%") in
      let textInput := mkTextAreaEl (placeholder textInput) (value textInput)
                                    (readOnly textInput)
                                    (prop_set (style textInput) "height" "100px") in
      let textInput := mkTextAreaEl (placeholder textInput) (value textInput)
                                    (readOnly textInput)
                                    (prop_set (style textInput) "marginBottom" "2px") in
      let outputContainer := createDiv "output-container" in
      let outputArea := createTextArea in
      let outputArea := mkTextAreaEl "Response will appear here..." (value outputArea)
                                     (readOnly outputArea) (style outputArea) in
      let outputArea := mkTextAreaEl (placeholder outputArea) (value outputArea)
                                     (readOnly outputArea)
                                     (prop_set (style outputArea) "width" "100%") in
      let outputArea := mkTextAreaEl (placeholder outputArea) (value outputArea)
                                     (readOnly outputArea)
                                     (prop_set (style outputArea) "maxHeight" "300px") in
      let outputArea := mkTextAreaEl (placeholder outputArea) (value outputArea)
                                     (readOnly outputArea)
                                     (prop_set (style outputArea) "marginBottom" "10px") in
      let outputArea := mkTextAreaEl (placeholder outputArea) (value outputArea)
                                     true (style outputArea) in
      let outputArea := mkTextAreaEl (placeholder outputArea) (value outputArea)
                                     (readOnly outputArea)
                                     (prop_set (style outputArea) "visibility" "hidden") in
      let buttonContainer := createDiv "button-container" in
      let buttonContainer :=
        mkDivEl (div_cls buttonContainer)
                (prop_set (div_style buttonContainer) "textAlign" "center") in
      let submitButton := mkButtonEl "Submit" in
      Some {| openai := client;
              current_file_content := content;
              ui := mkUI inputContainer textInput outputContainer outputArea
                         buttonContainer submitButton;
              notices := notes;
              console := lines |}
  end.

(** The callback of the command [genie]: [new AskLLMModal(app, plugin).open()]. *)
Definition genie_callback (p : MyPlugin) (active : option string)
    (notes : list string) (lines : list ConsoleEntry) : option Session :=
  match AskLLMModal_openai p with
  | Some client => onOpen client active notes lines
  | None => None
  end.

(** The user types into the prompt box, leaving the raw value [prompt]. *)
Definition type_prompt (prompt : string) (s : Session) : Session :=
  {| openai := openai s;
     current_file_content := current_file_content s;
     ui := mkUI (inputContainer (ui s))
                (mkTextAreaEl (placeholder (textInput (ui s))) prompt
                              (readOnly (textInput (ui s))) (style (textInput (ui s))))
                (outputContainer (ui s)) (outputArea (ui s))
                (buttonContainer (ui s)) (submitButton (ui s));
     notices := notices s;
     console := console s |}.

(** Assignments to [outputArea.value] (the raw value becomes the string
    assigned) and to [outputArea.style.visibility]. *)
Definition set_outputArea (f : TextAreaEl -> TextAreaEl) (s : Session) : Session :=
  {| openai := openai s;
     current_file_content := current_file_content s;
     ui := mkUI (inputContainer (ui s)) (textInput (ui s)) (outputContainer (ui s))
                (f (outputArea (ui s)))
                (buttonContainer (ui s)) (submitButton (ui s));
     notices := notices s;
     console := console s |}.

Definition set_value (v : string) (t : TextAreaEl) : TextAreaEl :=
  mkTextAreaEl (placeholder t) v (readOnly t) (style t).

Definition set_visibility (v : string) (t : TextAreaEl) : TextAreaEl :=
  mkTextAreaEl (placeholder t) (value t) (readOnly t) (prop_set (style t) "visibility" v).

(** [new Notice(text)]. *)
Definition new_Notice (text : string) (s : Session) : Session :=
  {| openai := openai s; current_file_content := current_file_content s;
     ui := ui s; notices := notices s ++ [text]; console := console s |}.

Definition log (entry : ConsoleEntry) (s : Session) : Session :=
  {| openai := openai s; current_file_content := current_file_content s;
     ui := ui s; notices := notices s; console := console s ++ [entry] |}.

(** The conversion of the [value] setter of a text area: [null] gives the
    empty string, everything else goes through [ToString]. *)
Definition to_value (v : jsval) : Completion string :=
  match v with
  | VUndefined => Resolved "undefined"
  | VJson JNull => Resolved ""
  | VJson j => ToString j
  end.

(** A statement that changes the session. *)
Definition modify (f : Session -> Session) : M Session unit :=
  fun w => (Resolved tt, mkWorld (f (this w)) (sent w)).

(** A method call on [this.openai]. *)
Definition on_openai {A} (m : M Main.OpenAIAPI A) : M Session A :=
  fun w =>
    let r := m (mkWorld (openai (this w)) (sent w)) in
    (fst r,
     mkWorld {| openai := this (snd r);
                current_file_content := current_file_content (this w);
                ui := ui (this w);
                notices := notices (this w);
                console := console (this w) |}
             (sent (snd r))).

(** A [keydown] event, as far as the listener looks at it. *)
Record KeyboardEvent : Type := mkKeyboardEvent { key : string; shiftKey : bool }.

(** A handler is run to its end: the transport answers the request
    before the next event is handled, so two submissions do not
    interleave. *)
Section Handlers.
Variable net : Transport.
Local Open Scope async_scope.

(** [submitPrompt], the closure of [onOpen]. *)
Definition submitPrompt : M Session unit :=
  prompt <- read (fun s => api_value (textInput (ui s))) ;;
  _ <- modify (log (console_log "Submitted prompt:" prompt)) ;;
  _ <- modify (set_outputArea (set_visibility "visible")) ;;
  _ <- modify (set_outputArea (set_value "Processing your request...")) ;;
  try_catch
    (content <- read current_file_content ;;
     response <- on_openai (Main.query net content prompt) ;;
     shown <- lift (to_value response) ;;
     modify (set_outputArea (set_value shown)))
    (fun error =>
       _ <- modify (log (console_error "Error:" error)) ;;
       _ <- modify (new_Notice ("Error: " ++ message error)) ;;
       modify (set_outputArea (set_visibility "hidden"))).

(** The [click] listener of the submit button. *)
Definition on_click : M Session unit := submitPrompt.

(** The [keydown] listener of the prompt box; the result tells whether
    [preventDefault] was called. *)
Definition on_keydown (e : KeyboardEvent) : M Session bool :=
  if String.eqb (key e) "Enter" && negb (shiftKey e) then
    _ <- submitPrompt ;;
    ret true
  else
    ret false.
End Handlers.

(** *** Readings of a settings object *)

(** The property names of an object, in order. *)
Definition keys (o : Settings) : list string := map fst o.

(** What a setting is after loading: the stored value if the data file
    defines it, the default otherwise. *)
Definition stored_or_default (stored : option Settings) (k : string) : option string :=
  match stored with
  | Some d =>
      match prop_get d k with
      | Some v => Some v
      | None => prop_get DEFAULT_SETTINGS k
      end
  | None => prop_get DEFAULT_SETTINGS k
  end.

(** The setting an edit writes, and the value it writes. *)
Definition edit_key (e : Edit) : string :=
  match e with
  | EditApiKey _ => "openai_api_key"
  | EditInitialPrompt _ => "initial_prompt"
  | EditModel _ => "model"
  end.

Definition edit_value (e : Edit) : string :=
  match e with
  | EditApiKey v | EditInitialPrompt v | EditModel v => v
  end.

(** The last value a sequence of edits writes to a setting, if any. *)
Fixpoint last_edit (es : list Edit) (k : string) : option string :=
  match es with
  | [] => None
  | e :: rest =>
      match last_edit rest k with
      | Some v => Some v
      | None => if String.eqb k (edit_key e) then Some (edit_value e) else None
      end
  end.

(** A setting after loading [stored] and making the edits [es]. *)
Definition current (stored : option Settings) (es : list Edit) (k : string)
    : option string :=
  match last_edit es k with
  | Some v => Some v
  | None => stored_or_default stored k
  end.

(** An object that lists the three default settings first, in the order of
    [DEFAULT_SETTINGS], names no property twice and has no own property
    [__proto__]. *)
Definition defaults_first (s : Settings) : Prop :=
  NoDup (keys s) /\
  ~ In "__proto__" (keys s) /\
  exists x y z extra,
    s = ("openai_api_key", x) :: ("initial_prompt", y) :: ("model", z) :: extra.

(** *** Readings of a session *)

(** [textInput.value], [outputArea.value] and
    [outputArea.style.visibility]. *)
Definition prompt_of (s : Session) : string := api_value (textInput (ui s)).

Definition output_text (s : Session) : string := api_value (outputArea (ui s)).

Definition output_visibility (s : Session) : option string :=
  prop_get (style (outputArea (ui s))) "visibility".

(** The session while the request is under way: the prompt is logged and
    the output area shows the processing text. *)
Definition started (s : Session) : Session :=
  set_outputArea (set_value "Processing your request...")
    (set_outputArea (set_visibility "visible")
       (log (console_log "Submitted prompt:" (prompt_of s)) s)).

(** The [query] call that a submission in world [w] makes, run on the
    client of the session. *)
Definition submitted_query (net : Transport) (w : World Session)
    : Completion jsval * World Main.OpenAIAPI :=
  Main.query net (current_file_content (this w)) (prompt_of (this w))
             (mkWorld (openai (this w)) (sent w)).

(** The request of that call. *)
Definition submitted_post (s : Session) : HttpRequest :=
  Spec.post_for (openai s) (current_file_content s) (prompt_of s).

(** *** A sample session *)

(** The modal opened by the command on a plugin with no data file, over
    a document that reads [some note], with the prompt [why?] typed in. *)
Definition sample_session : Session :=
  Eval cbv in
    match genie_callback (onload None) (Some "some note") [] [] with
    | Some s => type_prompt "why?" s
    | None =>
        mkSession (Main.constructor "" "" "") ""
                  (mkUI (createDiv "") createTextArea (createDiv "") createTextArea
                        (createDiv "") (mkButtonEl ""))
                  [] []
    end.

End Plugin.

(* ================================================================= *)
(** ** The modal of the second variant *)

Module VariantPlugin.
Import JS Async.

(** The client the constructor of the modal builds from the settings. *)
Definition AskLLMModal_openai (p : Plugin.MyPlugin) : option Variant.OpenAIAPI :=
  match Plugin.prop_get (Plugin.settings p) "openai_api_key",
        Plugin.prop_get (Plugin.settings p) "model",
        Plugin.prop_get (Plugin.settings p) "initial_prompt" with
  | Some k, Some m, Some i => Some (Variant.constructor k m i)
  | _, _, _ => None
  end.

(** The [ToString] of an argument of type [DOMString]. *)
Definition to_DOMString (v : jsval) : Completion string :=
  match v with
  | VUndefined => Resolved "undefined"
  | VJson j => ToString j
  end.

Section Modal.
(** What an element holds, as the host keeps it. *)
Variable Content : Type.
(** The children that an assignment to [innerHTML] leaves. *)
Variable html : string -> Content.
(** [MarkdownRenderer.render(app, markdown, el, '', component)] of the host
    application: what it makes of the content of [el], and how its promise
    settles. *)
Variable render : jsval -> Content -> Completion unit * Content.
(** [navigator.clipboard.writeText(text)]: how its promise settles. *)
Variable writeText : string -> Completion unit.

Record OutputDiv : Type := mkOutputDiv {
  out_cls : string;
  out_style : Plugin.Style;
  out_content : Content
}.

(** The copy button; [onclick] holds the response that its handler, once
    assigned, has captured. *)
Record CopyButton : Type := mkCopyButton {
  copy_text : string;
  onclick : option jsval
}.

Record UI : Type := mkUI {
  inputContainer : Plugin.DivEl;
  textInput : Plugin.TextAreaEl;
  outputContainer : OutputDiv;
  copyButtonContainer : Plugin.DivEl;
  copyButton : CopyButton;
  buttonContainer : Plugin.DivEl;
  submitButton : Plugin.ButtonEl
}.

Record Session : Type := mkSession {
  openai : Variant.OpenAIAPI;
  current_file_content : string;
  ui : UI;
  notices : list string;
  console : list Plugin.ConsoleEntry;
  clipboard : option string
}.

Definition set_style (k v : string) (d : Plugin.DivEl) : Plugin.DivEl :=
  Plugin.mkDivEl (Plugin.div_cls d) (Plugin.prop_set (Plugin.div_style d) k v).

Definition set_out_style (k v : string) (d : OutputDiv) : OutputDiv :=
  mkOutputDiv (out_cls d) (Plugin.prop_set (out_style d) k v) (out_content d).

Definition set_out_content (c : Content) (d : OutputDiv) : OutputDiv :=
  mkOutputDiv (out_cls d) (out_style d) c.

Definition set_textInput_style (k v : string) (t : Plugin.TextAreaEl) : Plugin.TextAreaEl :=
  Plugin.mkTextAreaEl (Plugin.placeholder t) (Plugin.value t) (Plugin.readOnly t)
                      (Plugin.prop_set (Plugin.style t) k v).

(** [onOpen()]; [None]: the modal closed itself. *)
Definition onOpen (client : Variant.OpenAIAPI) (active : option string)
    (notes : list string) (lines : list Plugin.ConsoleEntry) (clip : option string)
    : option Session :=
  match active with
  | None => None
  | Some EmptyString => None
  | Some content =>
      let inputContainer := Plugin.createDiv "input-container" in
      let inputContainer := set_style "marginBottom" "5px" inputContainer in
      let textInput := Plugin.createTextArea in
      let textInput :=
        Plugin.mkTextAreaEl "Enter your prompt here..." (Plugin.value textInput)
                            (Plugin.readOnly textInput) (Plugin.style textInput) in
      let textInput := set_textInput_style "width" "100%" textInput in
      let textInput := set_textInput_style "height" "100px" textInput in
      let textInput := set_textInput_style "marginBottom" "2px" textInput in
      let outputContainer := mkOutputDiv "output-container" [] (html "") in
      let outputContainer := set_out_style "display" "none" outputContainer in
      let outputContainer := set_out_style "maxHeight" "500px" outputContainer in
      let outputContainer := set_out_style "overflow" "auto" outputContainer in
      let outputContainer := set_out_style "padding" "10px" outputContainer in
      let outputContainer :=
        set_out_style "border" "1px solid var(--background-modifier-border)"
                      outputContainer in
      let outputContainer := set_out_style "borderRadius" "4px" outputContainer in
      let outputContainer := set_out_style "marginTop" "10px" outputContainer in
      let copyButtonContainer := Plugin.createDiv "copy-button-container" in
      let copyButtonContainer := set_style "display" "none" copyButtonContainer in
      let copyButtonContainer := set_style "textAlign" "right" copyButtonContainer in
      let copyButtonContainer := set_style "marginTop" "5px" copyButtonContainer in
      let copyButton := mkCopyButton "Copy" None in
      let buttonContainer := Plugin.createDiv "button-container" in
      let buttonContainer := set_style "textAlign" "center" buttonContainer in
      let submitButton := Plugin.mkButtonEl "Submit" in
      Some {| openai := client;
              current_file_content := content;
              ui := mkUI inputContainer textInput outputContainer copyButtonContainer
                         copyButton buttonContainer submitButton;
              notices := notes;
              console := lines;
              clipboard := clip |}
  end.

(** The user types into the prompt box, leaving the raw value [prompt]. *)
Definition type_prompt (prompt : string) (s : Session) : Session :=
  {| openai := openai s;
     current_file_content := current_file_content s;
     ui := mkUI (inputContainer (ui s))
                (Plugin.mkTextAreaEl (Plugin.placeholder (textInput (ui s))) prompt
                                     (Plugin.readOnly (textInput (ui s)))
                                     (Plugin.style (textInput (ui s))))
                (outputContainer (ui s)) (copyButtonContainer (ui s)) (copyButton (ui s))
                (buttonContainer (ui s)) (submitButton (ui s));
     notices := notices s; console := console s; clipboard := clipboard s |}.

Definition set_ui (f : UI -> UI) (s : Session) : Session :=
  {| openai := openai s; current_file_content := current_file_content s;
     ui := f (ui s);
     notices := notices s; console := console s; clipboard := clipboard s |}.

Definition on_outputContainer (f : OutputDiv -> OutputDiv) (u : UI) : UI :=
  mkUI (inputContainer u) (textInput u) (f (outputContainer u)) (copyButtonContainer u)
       (copyButton u) (buttonContainer u) (submitButton u).

Definition on_copyButtonContainer (f : Plugin.DivEl -> Plugin.DivEl) (u : UI) : UI :=
  mkUI (inputContainer u) (textInput u) (outputContainer u) (f (copyButtonContainer u))
       (copyButton u) (buttonContainer u) (submitButton u).

Definition set_onclick (response : jsval) (u : UI) : UI :=
  mkUI (inputContainer u) (textInput u) (outputContainer u) (copyButtonContainer u)
       (mkCopyButton (copy_text (copyButton u)) (Some response))
       (buttonContainer u) (submitButton u).

Definition new_Notice (text : string) (s : Session) : Session :=
  {| openai := openai s; current_file_content := current_file_content s;
     ui := ui s; notices := notices s ++ [text]; console := console s;
     clipboard := clipboard s |}.

Definition log (entry : Plugin.ConsoleEntry) (s : Session) : Session :=
  {| openai := openai s; current_file_content := current_file_content s;
     ui := ui s; notices := notices s; console := console s ++ [entry];
     clipboard := clipboard s |}.

Definition set_clipboard (text : string) (s : Session) : Session :=
  {| openai := openai s; current_file_content := current_file_content s;
     ui := ui s; notices := notices s; console := console s;
     clipboard := Some text |}.

Definition modify (f : Session -> Session) : M Session unit :=
  fun w => (Resolved tt, mkWorld (f (this w)) (sent w)).

(** A method call on [this.openai]. *)
Definition on_openai {A} (m : M Variant.OpenAIAPI A) : M Session A :=
  fun w =>
    let r := m (mkWorld (openai (this w)) (sent w)) in
    (fst r,
     mkWorld {| openai := this (snd r);
                current_file_content := current_file_content (this w);
                ui := ui (this w);
                notices := notices (this w);
                console := console (this w);
                clipboard := clipboard (this w) |}
             (sent (snd r))).

(** [await MarkdownRenderer.render(this.app, response, outputContainer, '',
    markdownRenderChild)]. *)
Definition render_into_output (response : jsval) : M Session unit :=
  fun w =>
    let r := render response (out_content (outputContainer (ui (this w)))) in
    (fst r,
     mkWorld (set_ui (on_outputContainer (set_out_content (snd r))) (this w)) (sent w)).

(** [await navigator.clipboard.writeText(response)]. *)
Definition clipboard_writeText (response : jsval) : M Session unit :=
  fun w =>
    match to_DOMString response with
    | Rejected e => (Rejected e, w)
    | Resolved text =>
        match writeText text with
        | Rejected e => (Rejected e, w)
        | Resolved _ => (Resolved tt, mkWorld (set_clipboard text (this w)) (sent w))
        end
    end.

Section Handlers.
Variable net : Transport.
Local Open Scope async_scope.

(** [submitPrompt], the closure of [onOpen]. *)
Definition submitPrompt : M Session unit :=
  prompt <- read (fun s => Plugin.api_value (textInput (ui s))) ;;
  _ <- modify (log (Plugin.console_log "Submitted prompt:" prompt)) ;;
  _ <- modify (set_ui (on_outputContainer (set_out_style "display" "block"))) ;;
  _ <- modify (set_ui (on_outputContainer
                         (set_out_content (html "<em>Processing your request...</em>")))) ;;
  _ <- modify (set_ui (on_copyButtonContainer (set_style "display" "none"))) ;;
  try_catch
    (content <- read current_file_content ;;
     response <- on_openai (Variant.query net content prompt) ;;
     _ <- modify (set_ui (on_outputContainer (set_out_content (html "")))) ;;
     _ <- render_into_output response ;;
     _ <- modify (set_ui (on_copyButtonContainer (set_style "display" "block"))) ;;
     modify (set_ui (set_onclick response)))
    (fun error =>
       _ <- modify (log (Plugin.console_error "Error:" error)) ;;
       _ <- modify (new_Notice ("Error: " ++ message error)) ;;
       _ <- modify (set_ui (on_outputContainer (set_out_style "display" "none"))) ;;
       modify (set_ui (on_copyButtonContainer (set_style "display" "none")))).

(** The [click] listener of the submit button. *)
Definition on_click : M Session unit := submitPrompt.

(** The [keydown] listener of the prompt box; the result tells whether
    [preventDefault] was called. *)
Definition on_keydown (e : Plugin.KeyboardEvent) : M Session bool :=
  if String.eqb (Plugin.key e) "Enter" && negb (Plugin.shiftKey e) then
    _ <- submitPrompt ;;
    ret true
  else
    ret false.

(** A click on the copy button: its [onclick] handler, if one has been
    assigned. *)
Definition on_copy_click : M Session unit :=
  handler <- read (fun s => onclick (copyButton (ui s))) ;;
  match handler with
  | None => ret tt
  | Some response =>
      _ <- clipboard_writeText response ;;
      modify (new_Notice "Copied to clipboard!")
  end.
End Handlers.

(** *** Readings of a session *)

Definition prompt_of (s : Session) : string := Plugin.api_value (textInput (ui s)).

Definition output_display (s : Session) : option string :=
  Plugin.prop_get (out_style (outputContainer (ui s))) "display".

Definition copy_display (s : Session) : option string :=
  Plugin.prop_get (Plugin.div_style (copyButtonContainer (ui s))) "display".

(** The [query] call that a submission in world [w] makes. *)
Definition submitted_query (net : Transport) (w : World Session)
    : Completion jsval * World Variant.OpenAIAPI :=
  Variant.query net (current_file_content (this w)) (prompt_of (this w))
                (mkWorld (openai (this w)) (sent w)).

End Modal.

(** The same client, as [src/main.ts] has it. *)
Definition to_main (c : Variant.OpenAIAPI) : Main.OpenAIAPI :=
  Main.constructor (Variant.apiKey c) (Variant.model c) (Variant.initialPrompt c).

(** *** A sample host and session *)

(** A host whose elements hold text: markup is kept as it is, and the
    renderer appends a string and fails on anything else. *)
Definition sample_render (v : jsval) (c : string) : Completion unit * string :=
  match v with
  | VJson (JStr text) => (Resolved tt, c ++ text)
  | _ => (Rejected (mkJsError "TypeError" "markdown is not a string"), c)
  end.

(** The modal of the variant opened on a plugin with no data file, over a
    document that reads [some note], with the prompt [why?] typed in. *)
Definition sample_session : Session string :=
  Eval cbv in
    match onOpen (fun markup => markup) (Variant.constructor "sk-..." "gpt-4o-mini" "you are a helpful and smart assistant. you are given a text and you need to answer the question based on the text.")
                 (Some "some note") [] [] None with
    | Some s => type_prompt "why?" s
    | None =>
        mkSession (Variant.constructor "" "" "") ""
                  (mkUI (Plugin.createDiv "") Plugin.createTextArea
                        (mkOutputDiv "" [] "") (Plugin.createDiv "")
                        (mkCopyButton "" None) (Plugin.createDiv "")
                        (Plugin.mkButtonEl ""))
                  [] [] None
    end.

End VariantPlugin.

(* ================================================================= *)
(** ** Reading a serialized string back *)

Module Wire.
Import JS.

(** The value of a lower-case hexadecimal digit. *)
Definition hex_val (c : ascii) : option nat :=
  let n := nat_of_ascii c in
  if (48 <=? n)%nat && (n <=? 57)%nat then Some (n - 48)
  else if (97 <=? n)%nat && (n <=? 102)%nat then Some (n - 87)
  else None.

(** One character of the inside of a JSON string literal, as a JSON
    reader takes it: an escape sequence, or a plain character that is
    neither the closing quote nor a control character.  [None] where the
    literal ends or is ill-formed. *)
Definition unquote_step (s : string) : option (ascii * string) :=
  match s with
  | EmptyString => None
  | String c rest =>
      let n := nat_of_ascii c in
      if (n =? 92)%nat then
        match rest with
        | EmptyString => None
        | String d rest' =>
            let m := nat_of_ascii d in
            if (m =? 98)%nat then Some (ascii_of_nat 8, rest')
            else if (m =? 116)%nat then Some (ascii_of_nat 9, rest')
            else if (m =? 110)%nat then Some (ascii_of_nat 10, rest')
            else if (m =? 102)%nat then Some (ascii_of_nat 12, rest')
            else if (m =? 114)%nat then Some (ascii_of_nat 13, rest')
            else if (m =? 34)%nat then Some (ascii_of_nat 34, rest')
            else if (m =? 92)%nat then Some (ascii_of_nat 92, rest')
            else if (m =? 117)%nat then
              match rest' with
              | String z1 (String z2 (String h1 (String h2 rest''))) =>
                  if (nat_of_ascii z1 =? 48)%nat && (nat_of_ascii z2 =? 48)%nat then
                    match hex_val h1, hex_val h2 with
                    | Some a, Some b => Some (ascii_of_nat (16 * a + b), rest'')
                    | _, _ => None
                    end
                  else None
              | _ => None
              end
            else None
        end
      else if (n =? 34)%nat then None
      else if (n <? 32)%nat then None
      else Some (c, rest)
  end.

End Wire.

(* ================================================================= *)
(** ** What [fetch] puts on the wire *)

Module Fetch.
Import JS Async.

(** The calls of [fetch] made so far. *)
Definition calls {Obj : Type} (w : World Obj) : list HttpRequest := sent w.

(** HTTP whitespace: tab, line feed, carriage return, space. *)
Definition is_http_whitespace (c : ascii) : bool :=
  let n := nat_of_ascii c in
  (n =? 9)%nat || (n =? 10)%nat || (n =? 13)%nat || (n =? 32)%nat.

Fixpoint strip_leading (s : string) : string :=
  match s with
  | EmptyString => EmptyString
  | String c rest => if is_http_whitespace c then strip_leading rest else s
  end.

Fixpoint strip_trailing (s : string) : string :=
  match s with
  | EmptyString => EmptyString
  | String c rest =>
      match strip_trailing rest with
      | EmptyString => if is_http_whitespace c then EmptyString else String c EmptyString
      | kept => String c kept
      end
  end.

(** A header value, normalized: without its leading and trailing HTTP
    whitespace. *)
Definition normalize_value (s : string) : string := strip_trailing (strip_leading s).

(** A string that converts to a [ByteString]: no code point above U+00FF,
    that is, in the UTF-8 reading of the string, no byte from 0xC4 on. *)
Fixpoint byte_string (s : string) : bool :=
  match s with
  | EmptyString => true
  | String c rest => (nat_of_ascii c <? 196)%nat && byte_string rest
  end.

(** NUL, line feed or carriage return somewhere in the string. *)
Fixpoint has_forbidden_byte (s : string) : bool :=
  match s with
  | EmptyString => false
  | String c rest =>
      let n := nat_of_ascii c in
      (n =? 0)%nat || (n =? 10)%nat || (n =? 13)%nat || has_forbidden_byte rest
  end.

(** The value that a request carries for a header given as [raw]; [None]
    where the runtime refuses it. *)
Definition header_value (raw : string) : option string :=
  if byte_string raw then
    if has_forbidden_byte (normalize_value raw) then None
    else Some (normalize_value raw)
  else None.

Fixpoint wire_headers (hs : list (string * string)) : option (list (string * string)) :=
  match hs with
  | [] => Some []
  | (name, raw) :: rest =>
      match header_value raw, wire_headers rest with
      | Some v, Some vs => Some ((name, v) :: vs)
      | _, _ => None
      end
  end.

(** The request that a call of [fetch] puts on the wire; [None] where the
    runtime refuses the call and nothing leaves. *)
Definition wire (call : HttpRequest) : option HttpRequest :=
  match wire_headers (headers (init call)) with
  | Some hs => Some (mkHttpRequest (url call)
                       (mkRequestInit (method (init call)) hs (body (init call))))
  | None => None
  end.

(** The requests that one call, and a sequence of calls, put on the wire. *)
Definition issued_by (call : HttpRequest) : list HttpRequest :=
  match wire call with
  | Some r => [r]
  | None => []
  end.

Fixpoint issued (cs : list HttpRequest) : list HttpRequest :=
  match cs with
  | [] => []
  | c :: rest => issued_by c ++ issued rest
  end.


(** The POST on the wire for a Request, with [v] as the value of the
    [Authorization] header. *)
Definition wire_post (v : string) (r : Spec.Request) : HttpRequest :=
  {| url := Spec.endpoint;
     init := {| method := "POST";
                headers := [ ("Content-Type", "application/json");
                             ("Authorization", v) ];
                body := JSON_stringify (Spec.Request_to_json r) |} |}.

End Fetch.

(* ================================================================= *)
(** ** Properties of [query] *)

Import JS Async Spec Samples.

Ltac run_query :=
  unfold Main.query, Variant.query, bind, read, fetch, Response_json, try_catch,
    throw, lift, ret;
  cbn [fst snd this sent Main.apiKey Main.model Main.initialPrompt
       Variant.apiKey Variant.model Variant.initialPrompt].

Lemma post_for_eq (c : Main.OpenAIAPI) (context question : string) :
  post_for c context question =
  {| url := "https://api.openai.com/v1/chat/completions";
     init := {| method := "POST";
                headers := [ ("Content-Type", "application/json");
                             ("Authorization", "Bearer " ++ Main.apiKey c) ];
                body := JSON_stringify
                  (JObj [ ("model", JStr (Main.model c));
                          ("messages", JArr [
                             JObj [ ("role", JStr "system");
                                    ("content", JStr (Main.initialPrompt c)) ];
                             JObj [ ("role", JStr "system");
                                    ("content", JStr ("context: " ++ context)) ];
                             JObj [ ("role", JStr "user");
                                    ("content", JStr question) ] ]) ]) |} |}.
Proof. reflexivity. Qed.

(** The world a call leaves: the same object, one more request. *)
Lemma query_world (net : Transport) (context question : string) (w : World Main.OpenAIAPI) :
  snd (Main.query net context question w) =
  mkWorld (this w) (sent w ++ [post_for (this w) context question]).
Proof.
  rewrite post_for_eq. run_query.
  match goal with |- context [net ?h ?r] => destruct (net h r) as [resp | e] end;
    [ | reflexivity ].
  destruct (ok resp); cbn [negb].
  - destruct (json_result resp) as [data | e]; [ | reflexivity ].
    destruct (getProp (VJson data) K_choices) as [v1 | e]; [ | reflexivity ].
    destruct (getProp v1 K_0) as [v2 | e]; [ | reflexivity ].
    destruct (getProp v2 K_message) as [v3 | e]; [ | reflexivity ].
    destruct (getProp v3 K_content) as [v4 | e]; reflexivity.
  - destruct (json_result resp) as [data | e]; [ | reflexivity ].
    destruct (getProp (VJson data) K_error) as [v1 | e]; [ | reflexivity ].
    destruct (getProp v1 K_message) as [v2 | e]; [ | reflexivity ].
    destruct (new_Error v2) as [err | e]; reflexivity.
Qed.

(** *** Strings and decimal digits *)

Lemma append_empty_r (s : string) : s ++ "" = s.
Proof. induction s as [ | c s IH ]; cbn; [ reflexivity | now rewrite IH ]. Qed.

Lemma has_digit_app (a b : string) :
  has_digit (a ++ b) = has_digit a || has_digit b.
Proof.
  induction a as [ | c a IH ]; cbn; [ reflexivity | ].
  now rewrite IH, orb_assoc.
Qed.

Lemma head_digit_has_digit (s : string) :
  head_digit s = true -> has_digit s = true.
Proof.
  destruct s as [ | c s ]; cbn; [ discriminate | ].
  intros ->. reflexivity.
Qed.

Lemma embeds_digit (needle hay : string) :
  embeds needle hay -> head_digit needle = true -> has_digit hay = true.
Proof.
  intros (pre & post & ->) Hd.
  rewrite !has_digit_app, (head_digit_has_digit _ Hd).
  now rewrite orb_true_r.
Qed.

Lemma is_digit_digit_char (d : nat) : d < 10 -> is_digit (digit_char d) = true.
Proof.
  intros H.
  do 10 (destruct d as [ | d ]; [ reflexivity | ]).
  lia.
Qed.

Lemma dec_go_head_digit (fuel n : nat) (acc : string) :
  head_digit acc = true -> head_digit (dec_go fuel n acc) = true.
Proof.
  revert n acc.
  induction fuel as [ | fuel IH ]; intros n acc Hacc; cbn [dec_go]; [ exact Hacc | ].
  assert (Hd : head_digit (String (digit_char (n mod 10)) acc) = true).
  { cbn [head_digit]. apply is_digit_digit_char, Nat.mod_upper_bound. lia. }
  destruct (n / 10 =? 0)%nat; [ exact Hd | apply IH, Hd ].
Qed.

(** The rendering of a status code starts with a decimal digit. *)
Lemma nat_to_string_head_digit (n : nat) : head_digit (nat_to_string n) = true.
Proof.
  unfold nat_to_string. cbn [dec_go].
  assert (Hd : head_digit (String (digit_char (n mod 10)) "") = true).
  { cbn [head_digit]. apply is_digit_digit_char, Nat.mod_upper_bound. lia. }
  destruct (n / 10 =? 0)%nat; [ exact Hd | apply dec_go_head_digit, Hd ].
Qed.

(** *** Property reads *)

Lemma getProp_nullish (v : jsval) (k : Key) :
  nullish v = true ->
  getProp v k = Rejected (cannot_read (fault_base v) k).
Proof.
  destruct v as [ | [ | b | r | s | items | fields ] ]; cbn; intros H;
    try discriminate H; reflexivity.
Qed.

Lemma getProp_readable (v : jsval) (k : Key) :
  nullish v = false -> getProp v k = Resolved (opt_get v k).
Proof.
  unfold opt_get.
  destruct v as [ | [ | b | r | s | items | fields ] ]; cbn; intros H;
    try discriminate H; reflexivity.
Qed.

Lemma opt_get_nullish (v : jsval) (k : Key) :
  nullish v = true -> opt_get v k = VUndefined.
Proof.
  intros H. unfold opt_get.
  rewrite (getProp_nullish v k H). reflexivity.
Qed.

Lemma read_content_readable (data : json) :
  nullish (message_of data) = false ->
  read_content data = Resolved (content_of data).
Proof.
  unfold read_content, content_of, message_of. intros H.
  destruct (nullish (VJson data)) eqn:H0.
  { rewrite (opt_get_nullish _ K_choices H0) in H. cbn in H. discriminate H. }
  rewrite (getProp_readable _ _ H0).
  destruct (nullish (opt_get (VJson data) K_choices)) eqn:H1.
  { rewrite (opt_get_nullish _ K_0 H1) in H. cbn in H. discriminate H. }
  rewrite (getProp_readable _ _ H1).
  destruct (nullish (opt_get (opt_get (VJson data) K_choices) K_0)) eqn:H2.
  { rewrite (opt_get_nullish _ K_message H2) in H. cbn in H. discriminate H. }
  rewrite (getProp_readable _ _ H2).
  apply getProp_readable, H.
Qed.

Lemma read_content_faults (data : json) :
  nullish (message_of data) = true ->
  exists base k, read_content data = Rejected (cannot_read base k).
Proof.
  unfold read_content, message_of. intros H.
  destruct (nullish (VJson data)) eqn:H0.
  { rewrite (getProp_nullish _ K_choices H0). eauto. }
  rewrite (getProp_readable _ _ H0).
  destruct (nullish (opt_get (VJson data) K_choices)) eqn:H1.
  { rewrite (getProp_nullish _ K_0 H1). eauto. }
  rewrite (getProp_readable _ _ H1).
  destruct (nullish (opt_get (opt_get (VJson data) K_choices) K_0)) eqn:H2.
  { rewrite (getProp_nullish _ K_message H2). eauto. }
  rewrite (getProp_readable _ _ H2).
  rewrite (getProp_nullish _ K_content H). eauto.
Qed.

(** *** The two branches of [query] *)

Section Branches.
Variable net : Transport.
Variables context question : string.
Variable w : World Main.OpenAIAPI.
Variable resp : Response.
Hypothesis answered : net (sent w) (post_for (this w) context question) = Resolved resp.

Lemma query_success (data : json) :
  ok resp = true -> json_result resp = Resolved data ->
  fst (Main.query net context question w) = read_content data.
Proof.
  intros Hok Hjson. rewrite post_for_eq in answered. run_query.
  rewrite answered, Hok. cbn [negb]. rewrite Hjson. unfold read_content.
  destruct (getProp (VJson data) K_choices) as [v1 | e]; [ | reflexivity ].
  destruct (getProp v1 K_0) as [v2 | e]; [ | reflexivity ].
  destruct (getProp v2 K_message) as [v3 | e]; [ | reflexivity ].
  destruct (getProp v3 K_content) as [v4 | e]; reflexivity.
Qed.

Lemma query_failure_unparsed (e : JsError) :
  ok resp = false -> json_result resp = Rejected e ->
  fst (Main.query net context question w) =
  Rejected (mkJsError "Error" ("HTTP error! status: " ++ nat_to_string (status resp))).
Proof.
  intros Hok Hjson. rewrite post_for_eq in answered. run_query.
  rewrite answered, Hok. cbn [negb]. rewrite Hjson. reflexivity.
Qed.

Lemma query_failure_parsed (errorData : json) :
  ok resp = false -> json_result resp = Resolved errorData ->
  fst (Main.query net context question w) =
  match getProp (VJson errorData) K_error with
  | Rejected e => Rejected e
  | Resolved err =>
      match getProp err K_message with
      | Rejected e => Rejected e
      | Resolved m => throw_new_Error m
      end
  end.
Proof.
  intros Hok Hjson. rewrite post_for_eq in answered. run_query.
  rewrite answered, Hok. cbn [negb]. rewrite Hjson.
  destruct (getProp (VJson errorData) K_error) as [v1 | e]; [ | reflexivity ].
  destruct (getProp v1 K_message) as [v2 | e]; [ | reflexivity ].
  unfold throw_new_Error; destruct (new_Error v2) as [err | e]; reflexivity.
Qed.
End Branches.

(* ================================================================= *)
(** ** Success responses *)

(** C3: when the transport answers the call with a success-status
    response whose body is [{"choices":[{"message":{"content":"42"}}]}],
    [query] resolves with the string ["42"], the content of the message of
    the first choice. *)
Theorem query_returns_first_choice_content
    (net : Transport) (context question : string) (w : World Main.OpenAIAPI)
    (resp : Response) :
  net (sent w) (post_for (this w) context question) = Resolved resp ->
  ok resp = true ->
  json_result resp =
    Resolved (JObj [ ("choices",
                      JArr [ JObj [ ("message", JObj [ ("content", JStr "42") ]) ] ]) ]) ->
  fst (Main.query net context question w) = Resolved (VJson (JStr "42")).
Proof.
  intros Hnet Hok Hjson.
  rewrite (query_success _ _ _ _ Hnet Hok Hjson).
  reflexivity.
Qed.

Lemma query_returns_first_choice_content_witness :
  fst (Main.query (always (Response_of 200 (Resolved body_42))) "some note" "what is 6*7?" w0)
  = Resolved (VJson (JStr "42")).
Proof.
  apply (@query_returns_first_choice_content
           (always (Response_of 200 (Resolved body_42))) "some note" "what is 6*7?" w0
           (Response_of 200 (Resolved body_42)));
    reflexivity.
Defined.

(** C1, as the code has it: when the transport answers with a
    success-status response whose parsed body has no usable [choices],
    first choice or [message] (one of them is missing or [null]), [query]
    fails: its promise rejects with the [TypeError] of the faulting
    property read.  In particular a body without [choices] makes the read
    of [[0]] on [undefined] fault.  When the message is there, nothing
    faults: the promise resolves with whatever [content] reads, which is
    [undefined] for a message without [content]. *)
Theorem query_malformed_success_faults
    (net : Transport) (context question : string) (w : World Main.OpenAIAPI)
    (resp : Response) :
  net (sent w) (post_for (this w) context question) = Resolved resp ->
  ok resp = true ->
  (forall data, json_result resp = Resolved data ->
     nullish (message_of data) = true ->
     exists base k,
       fst (Main.query net context question w) = Rejected (cannot_read base k)) /\
  (forall fields, json_result resp = Resolved (JObj fields) ->
     assoc "choices" fields = None ->
     fst (Main.query net context question w) = Rejected (cannot_read "undefined" K_0)) /\
  (forall data, json_result resp = Resolved data ->
     nullish (message_of data) = false ->
     fst (Main.query net context question w) = Resolved (content_of data)).
Proof.
  intros Hnet Hok. split; [ | split ].
  - intros data Hjson Hshape.
    rewrite (query_success _ _ _ _ Hnet Hok Hjson).
    apply read_content_faults, Hshape.
  - intros fields Hjson Hchoices.
    rewrite (query_success _ _ _ _ Hnet Hok Hjson).
    unfold read_content. cbn. rewrite Hchoices. reflexivity.
  - intros data Hjson Hshape.
    rewrite (query_success _ _ _ _ Hnet Hok Hjson).
    apply read_content_readable, Hshape.
Qed.

Lemma query_malformed_success_faults_witness :
  fst (Main.query (always (Response_of 200 (Resolved body_no_choices))) "some note" "why?" w0)
  = Rejected (mkJsError "TypeError" "Cannot read properties of undefined (reading '0')").
Proof.
  apply (proj1 (proj2 (@query_malformed_success_faults
                         (always (Response_of 200 (Resolved body_no_choices)))
                         "some note" "why?" w0
                         (Response_of 200 (Resolved body_no_choices)) eq_refl eq_refl))
               [ ("id", JStr "cmpl-1") ] eq_refl eq_refl).
Defined.

(** C1 fails as stated: a success-status response whose body lacks only
    [content] does not make [query] fail at all; the promise resolves, with
    [undefined]. *)
Lemma query_missing_content_resolves :
  ok (Response_of 200 (Resolved body_no_content)) = true /\
  lacks_expected_shape body_no_content = true /\
  fst (Main.query (always (Response_of 200 (Resolved body_no_content)))
                  "some note" "why?" w0) = Resolved VUndefined /\
  (forall e, fst (Main.query (always (Response_of 200 (Resolved body_no_content)))
                             "some note" "why?" w0) <> Rejected e).
Proof.
  repeat split; try reflexivity.
  intros e H. vm_compute in H. discriminate H.
Qed.

(* ================================================================= *)
(** ** Failure responses *)

(** Whatever value sits at [error.message] of an error object, the
    failure is [throw new Error] of it: a string as it is, any other value
    through [ToString] (whose own fault then is the failure), a missing one
    as the empty message. *)
Lemma query_error_message_any
    (net : Transport) (context question : string) (w : World Main.OpenAIAPI)
    (resp : Response) (errorData : json) :
  net (sent w) (post_for (this w) context question) = Resolved resp ->
  ok resp = false ->
  json_result resp = Resolved errorData ->
  nullish (error_of errorData) = false ->
  fst (Main.query net context question w)
    = throw_new_Error (opt_get (error_of errorData) K_message).
Proof.
  intros Hnet Hok Hjson Herr.
  rewrite (query_failure_parsed _ _ _ _ Hnet Hok Hjson).
  unfold error_of in *.
  destruct (nullish (VJson errorData)) eqn:H0.
  { rewrite (opt_get_nullish _ K_error H0) in Herr. discriminate Herr. }
  now rewrite (getProp_readable _ _ H0), (getProp_readable _ _ Herr).
Qed.

(** C4: when the transport answers with a non-success-status response whose
    body parses as JSON and carries the text [text] at [error.message],
    [query] fails with an [Error] whose message is exactly [text]. *)
Theorem query_provider_error
    (net : Transport) (context question : string) (w : World Main.OpenAIAPI)
    (resp : Response) (errorData : json) (text : string) :
  net (sent w) (post_for (this w) context question) = Resolved resp ->
  ok resp = false ->
  json_result resp = Resolved errorData ->
  opt_get (error_of errorData) K_message = VJson (JStr text) ->
  fst (Main.query net context question w) = Rejected (mkJsError "Error" text).
Proof.
  intros Hnet Hok Hjson Hmsg.
  rewrite (query_failure_parsed _ _ _ _ Hnet Hok Hjson).
  unfold error_of in Hmsg.
  destruct (nullish (VJson errorData)) eqn:H0.
  { rewrite (opt_get_nullish _ K_error H0) in Hmsg. discriminate Hmsg. }
  rewrite (getProp_readable _ _ H0).
  destruct (nullish (opt_get (VJson errorData) K_error)) eqn:H1.
  { rewrite (opt_get_nullish _ K_message H1) in Hmsg. discriminate Hmsg. }
  rewrite (getProp_readable _ _ H1), Hmsg. reflexivity.
Qed.

Lemma query_provider_error_witness :
  fst (Main.query (always (Response_of 401 (Resolved body_invalid_api_key)))
                  "some note" "why?" w0)
  = Rejected (mkJsError "Error" "invalid_api_key").
Proof.
  apply (@query_provider_error
           (always (Response_of 401 (Resolved body_invalid_api_key)))
           "some note" "why?" w0
           (Response_of 401 (Resolved body_invalid_api_key))
           body_invalid_api_key "invalid_api_key");
    reflexivity.
Defined.

(** C5: when the transport answers with a non-success-status response whose
    body does not parse as JSON, [query] fails with an [Error] whose message
    is ["HTTP error! status: "] followed by the decimal status code, so the
    message embeds the code. *)
Theorem query_opaque_error
    (net : Transport) (context question : string) (w : World Main.OpenAIAPI)
    (resp : Response) (e : JsError) :
  net (sent w) (post_for (this w) context question) = Resolved resp ->
  ok resp = false ->
  json_result resp = Rejected e ->
  exists msg,
    fst (Main.query net context question w) = Rejected (mkJsError "Error" msg) /\
    msg = "HTTP error! status: " ++ nat_to_string (status resp) /\
    embeds (nat_to_string (status resp)) msg.
Proof.
  intros Hnet Hok Hjson.
  exists ("HTTP error! status: " ++ nat_to_string (status resp)).
  split; [ | split ].
  - apply (query_failure_unparsed _ _ _ _ Hnet Hok Hjson).
  - reflexivity.
  - exists "HTTP error! status: ", "". now rewrite append_empty_r.
Qed.

Lemma query_opaque_error_witness :
  exists msg,
    fst (Main.query (always (Response_of 500 (Rejected not_json))) "some note" "why?" w0)
      = Rejected (mkJsError "Error" msg) /\
    msg = "HTTP error! status: 500" /\
    embeds "500" msg.
Proof.
  apply (@query_opaque_error
           (always (Response_of 500 (Rejected not_json))) "some note" "why?" w0
           (Response_of 500 (Rejected not_json)) not_json);
    reflexivity.
Defined.

(** C10: when the transport answers with a non-success-status response
    whose body parses as JSON but has no [error] object ([error] is missing
    or [null], or the body is [null]), [query] fails with neither of its
    own two [Error]s: the read of the missing field faults, the rejection is
    a [TypeError], and its message contains no digit, hence neither a
    provider message nor the status code. *)
Theorem query_missing_error_object_faults
    (net : Transport) (context question : string) (w : World Main.OpenAIAPI)
    (resp : Response) (errorData : json) :
  net (sent w) (post_for (this w) context question) = Resolved resp ->
  ok resp = false ->
  json_result resp = Resolved errorData ->
  nullish (error_of errorData) = true ->
  exists e,
    fst (Main.query net context question w) = Rejected e /\
    name e = "TypeError" /\
    e <> mkJsError "Error" ("HTTP error! status: " ++ nat_to_string (status resp)) /\
    ~ embeds (nat_to_string (status resp)) (message e).
Proof.
  intros Hnet Hok Hjson Herr.
  rewrite (query_failure_parsed _ _ _ _ Hnet Hok Hjson).
  assert (Hfault : exists base k,
            (base = "undefined" \/ base = "null") /\ k <> K_0 /\
            match getProp (VJson errorData) K_error with
            | Rejected e => Rejected e
            | Resolved err =>
                match getProp err K_message with
                | Rejected e => Rejected e
                | Resolved m => throw_new_Error m
                end
            end = (Rejected (cannot_read base k) : Completion jsval)).
  { unfold error_of in Herr.
    destruct (nullish (VJson errorData)) eqn:H0.
    - rewrite (getProp_nullish _ K_error H0).
      exists (fault_base (VJson errorData)), K_error.
      repeat split; [ | discriminate ].
      destruct errorData; cbn; auto.
    - rewrite (getProp_readable _ _ H0), (getProp_nullish _ K_message Herr).
      exists (fault_base (opt_get (VJson errorData) K_error)), K_message.
      repeat split; [ | discriminate ].
      destruct (opt_get (VJson errorData) K_error) as [ | [ ] ]; cbn; auto. }
  destruct Hfault as (base & k & Hbase & Hk & ->).
  exists (cannot_read base k). repeat split.
  - discriminate.
  - intros Hemb.
    apply embeds_digit in Hemb; [ | apply nat_to_string_head_digit ].
    destruct Hbase as [-> | ->]; destruct k; try (now elim Hk);
      vm_compute in Hemb; discriminate Hemb.
Qed.

Lemma query_missing_error_object_faults_witness :
  exists e,
    fst (Main.query (always (Response_of 503 (Resolved body_down))) "some note" "why?" w0)
      = Rejected e /\
    name e = "TypeError" /\
    e <> mkJsError "Error" "HTTP error! status: 503" /\
    ~ embeds "503" (message e).
Proof.
  apply (@query_missing_error_object_faults
           (always (Response_of 503 (Resolved body_down))) "some note" "why?" w0
           (Response_of 503 (Resolved body_down)) body_down);
    reflexivity.
Defined.

(** What the promise of the sample call settles with. *)
Lemma query_body_down_outcome :
  fst (Main.query (always (Response_of 503 (Resolved body_down))) "some note" "why?" w0)
  = Rejected (mkJsError "TypeError"
                "Cannot read properties of undefined (reading 'message')").
Proof. reflexivity. Qed.

(* ================================================================= *)
(** ** The request *)

(** *** Calls of [fetch] and requests on the wire *)

Lemma issued_app (cs cs' : list HttpRequest) :
  Fetch.issued (cs ++ cs') = (Fetch.issued cs ++ Fetch.issued cs')%list.
Proof.
  induction cs as [ | c cs IH ]; cbn [Fetch.issued app]; [ reflexivity | ].
  now rewrite IH, app_assoc.
Qed.

Lemma issued_snoc (cs : list HttpRequest) (c : HttpRequest) :
  Fetch.issued (cs ++ [c]) = (Fetch.issued cs ++ Fetch.issued_by c)%list.
Proof. rewrite issued_app. cbn [Fetch.issued]. now rewrite app_nil_r. Qed.

(** The request of a [query] call on the wire: the call as it was made,
    with the [Authorization] value normalized, if the runtime takes that
    value at all. *)
Lemma wire_post_for (c : Main.OpenAIAPI) (context question : string) :
  Fetch.wire (post_for c context question) =
  match Fetch.header_value ("Bearer " ++ Main.apiKey c) with
  | Some v =>
      Some (Fetch.wire_post v
              (build_Request (Main.model c) (Main.initialPrompt c) context question))
  | None => None
  end.
Proof.
  unfold Fetch.wire, post_for, post_of.
  cbn [headers init url method body Fetch.wire_headers].
  replace (Fetch.header_value "application/json") with (Some "application/json")
    by reflexivity.
  destruct (Fetch.header_value ("Bearer " ++ Main.apiKey c)); reflexivity.
Qed.

Lemma issued_by_post_for (c : Main.OpenAIAPI) (context question : string) :
  Fetch.issued_by (post_for c context question) =
  match Fetch.header_value ("Bearer " ++ Main.apiKey c) with
  | Some v =>
      [Fetch.wire_post v
         (build_Request (Main.model c) (Main.initialPrompt c) context question)]
  | None => []
  end.
Proof.
  unfold Fetch.issued_by. rewrite wire_post_for.
  destruct (Fetch.header_value ("Bearer " ++ Main.apiKey c)); reflexivity.
Qed.





(** A line feed or a carriage return inside the credential is refused as
    well; at its end it is stripped. *)
Lemma credential_line_breaks :
  Fetch.header_value ("Bearer " ++ "sk-" ++ String (ascii_of_nat 10) "live") = None /\
  Fetch.header_value ("Bearer " ++ "sk-live" ++ String (ascii_of_nat 10) "")
    = Some "Bearer sk-live".
Proof. split; reflexivity. Qed.

(** C2: for every context, question and configuration, the Request that
    [query] serializes into the body of its request has the model of the
    configuration and exactly three messages, in the order
    (system, systemPrompt), (system, "context: " + context), (user, question).
    Empty strings are no exception: they go into the Request as they are,
    and the request is sent. *)
Theorem query_builds_request
    (net : Transport) (context question : string) (w : World Main.OpenAIAPI) :
  (exists req r,
     sent (snd (Main.query net context question w)) = (sent w ++ [req])%list /\
     body (init req) = JSON_stringify (Request_to_json r) /\
     request_model r = Main.model (this w) /\
     messages r = [ mkMessage "system" (Main.initialPrompt (this w));
                    mkMessage "system" ("context: " ++ context);
                    mkMessage "user" question ] /\
     length (messages r) = 3) /\
  (exists req r,
     sent (snd (Main.query net "" "" w)) = (sent w ++ [req])%list /\
     body (init req) = JSON_stringify (Request_to_json r) /\
     request_model r = Main.model (this w) /\
     messages r = [ mkMessage "system" (Main.initialPrompt (this w));
                    mkMessage "system" "context: ";
                    mkMessage "user" "" ]).
Proof.
  split.
  - exists (post_for (this w) context question),
      (build_Request (Main.model (this w)) (Main.initialPrompt (this w)) context question).
    rewrite query_world. repeat split.
  - exists (post_for (this w) "" ""),
      (build_Request (Main.model (this w)) (Main.initialPrompt (this w)) "" "").
    rewrite query_world. repeat split.
Qed.

(* ================================================================= *)
(** ** The client object *)

(** C8: the constructor stores the credential, the model and the system
    prompt, and a call of [query] leaves the object as it found it, whether
    the promise resolves or rejects. *)
Theorem query_preserves_client
    (net : Transport) (context question : string) (w : World Main.OpenAIAPI) :
  (forall k m p,
     Main.apiKey (Main.constructor k m p) = k /\
     Main.model (Main.constructor k m p) = m /\
     Main.initialPrompt (Main.constructor k m p) = p) /\
  this (snd (Main.query net context question w)) = this w.
Proof.
  split.
  - intros k m p. repeat split.
  - rewrite query_world. reflexivity.
Qed.

(** The promise of a call depends on the world only through the answer
    of the transport. *)
Lemma query_outcome_congr
    (net : Transport) (context question : string) (w w' : World Main.OpenAIAPI) :
  net (sent w) (post_for (this w) context question)
    = net (sent w') (post_for (this w') context question) ->
  fst (Main.query net context question w) = fst (Main.query net context question w').
Proof.
  intros H. rewrite !post_for_eq in H. run_query. rewrite H.
  match goal with |- context [net ?h ?r] => destruct (net h r) as [resp | e] end;
    [ | reflexivity ].
  destruct (ok resp); cbn [negb].
  - destruct (json_result resp) as [data | e]; [ | reflexivity ].
    destruct (getProp (VJson data) K_choices) as [v1 | e]; [ | reflexivity ].
    destruct (getProp v1 K_0) as [v2 | e]; [ | reflexivity ].
    destruct (getProp v2 K_message) as [v3 | e]; [ | reflexivity ].
    destruct (getProp v3 K_content) as [v4 | e]; reflexivity.
  - destruct (json_result resp) as [data | e]; [ | reflexivity ].
    destruct (getProp (VJson data) K_error) as [v1 | e]; [ | reflexivity ].
    destruct (getProp v1 K_message) as [v2 | e]; [ | reflexivity ].
    destruct (new_Error v2) as [err | e]; reflexivity.
Qed.

(** C6: against a deterministic transport, a second call of [query] with
    the same context and question settles as the first did; more generally
    two calls on clients with the same configuration settle alike whatever
    was sent before, so nothing accumulates between calls. *)
Theorem query_idempotent
    (net : Transport) (context question : string) (w : World Main.OpenAIAPI) :
  deterministic net ->
  fst (Main.query net context question (snd (Main.query net context question w)))
    = fst (Main.query net context question w) /\
  (forall w', this w' = this w ->
     fst (Main.query net context question w') = fst (Main.query net context question w)).
Proof.
  intros Hdet. split.
  - apply query_outcome_congr. rewrite query_world. cbn [this sent]. apply Hdet.
  - intros w' Hthis. apply query_outcome_congr. rewrite Hthis. apply Hdet.
Qed.

Lemma query_idempotent_witness :
  fst (Main.query (always (Response_of 200 (Resolved body_42))) "some note" "why?"
         (snd (Main.query (always (Response_of 200 (Resolved body_42)))
                          "some note" "why?" w0)))
    = fst (Main.query (always (Response_of 200 (Resolved body_42))) "some note" "why?" w0).
Proof.
  apply (proj1 (@query_idempotent (always (Response_of 200 (Resolved body_42)))
                  "some note" "why?" w0 (fun _ _ _ => eq_refl))).
Defined.

(* ================================================================= *)
(** ** The two variants *)

(** C9: for the same configuration, inputs, transport and history of
    requests, [query] of [src/main.ts] and [query] of the variant settle
    alike, send the same requests and leave the same configuration. *)
Theorem variants_agree
    (net : Transport) (k m p : string) (context question : string)
    (log : list HttpRequest) :
  let r1 := Main.query net context question (mkWorld (Main.constructor k m p) log) in
  let r2 := Variant.query net context question (mkWorld (Variant.constructor k m p) log) in
  fst r1 = fst r2 /\
  sent (snd r1) = sent (snd r2) /\
  Main.apiKey (this (snd r1)) = Variant.apiKey (this (snd r2)) /\
  Main.model (this (snd r1)) = Variant.model (this (snd r2)) /\
  Main.initialPrompt (this (snd r1)) = Variant.initialPrompt (this (snd r2)).
Proof.
  cbv zeta. unfold Main.constructor, Variant.constructor. run_query.
  match goal with |- context [net ?h ?r] => destruct (net h r) as [resp | e] end;
    [ | repeat split ].
  destruct (ok resp); cbn [negb].
  - destruct (json_result resp) as [data | e]; [ | repeat split ].
    destruct (getProp (VJson data) K_choices) as [v1 | e]; [ | repeat split ].
    destruct (getProp v1 K_0) as [v2 | e]; [ | repeat split ].
    destruct (getProp v2 K_message) as [v3 | e]; [ | repeat split ].
    destruct (getProp v3 K_content) as [v4 | e]; repeat split.
  - destruct (json_result resp) as [data | e]; [ | repeat split ].
    destruct (getProp (VJson data) K_error) as [v1 | e]; [ | repeat split ].
    destruct (getProp v1 K_message) as [v2 | e]; [ | repeat split ].
    destruct (new_Error v2) as [err | e]; repeat split.
Qed.

(* ================================================================= *)
(** ** Settings: loading, editing, saving *)

Unset Implicit Arguments.

Lemma prop_get_set (o : Plugin.Settings) (k v k' : string) :
  Plugin.prop_get (Plugin.prop_set o k v) k' =
  if String.eqb k' k then Some v else Plugin.prop_get o k'.
Proof.
  induction o as [ | [k0 v0] o IH ]; cbn.
  - destruct (String.eqb k' k); reflexivity.
  - destruct (String.eqb k k0) eqn:E; cbn.
    + apply String.eqb_eq in E. subst k0.
      destruct (String.eqb k' k); reflexivity.
    + rewrite IH. destruct (String.eqb k' k0) eqn:E'; [ | reflexivity ].
      apply String.eqb_eq in E'. subst k0.
      rewrite String.eqb_sym, E. reflexivity.
Qed.

Lemma prop_get_app (o o' : Plugin.Settings) (k : string) :
  Plugin.prop_get (o ++ o')%list k =
  match Plugin.prop_get o k with
  | Some v => Some v
  | None => Plugin.prop_get o' k
  end.
Proof.
  induction o as [ | [k0 v0] o IH ]; cbn; [ reflexivity | ].
  destruct (String.eqb k k0); [ reflexivity | apply IH ].
Qed.

Lemma in_keys_prop_set (o : Plugin.Settings) (k v k' : string) :
  In k' (Plugin.keys (Plugin.prop_set o k v)) -> In k' (Plugin.keys o) \/ k' = k.
Proof.
  induction o as [ | [k0 v0] o IH ]; cbn.
  - intros [H | []]. now right.
  - destruct (String.eqb k k0); cbn; intros [H | H]; auto.
    destruct (IH H); auto.
Qed.

(** After [Object.assign], a property other than [__proto__] reads as the
    last source entry that names it, or as the target had it. *)
Lemma prop_get_assign_from (source target : Plugin.Settings) (k : string) :
  k <> "__proto__" ->
  Plugin.prop_get (Plugin.assign_from target source) k =
  match Plugin.prop_get (rev source) k with
  | Some v => Some v
  | None => Plugin.prop_get target k
  end.
Proof.
  intros Hk. revert target.
  induction source as [ | [k0 v0] source IH ]; intros target; [ reflexivity | ].
  cbn [Plugin.assign_from rev]. rewrite prop_get_app. cbn [Plugin.prop_get].
  destruct (String.eqb k0 "__proto__") eqn:E.
  - apply String.eqb_eq in E. subst k0.
    apply String.eqb_neq in Hk. rewrite Hk, IH.
    destruct (Plugin.prop_get (rev source) k); reflexivity.
  - rewrite IH, prop_get_set.
    destruct (Plugin.prop_get (rev source) k); [ reflexivity | ].
    destruct (String.eqb k k0); reflexivity.
Qed.

(** [Object.assign] makes no own property [__proto__]. *)
Lemma assign_from_no_proto (source target : Plugin.Settings) :
  ~ In "__proto__" (Plugin.keys target) ->
  ~ In "__proto__" (Plugin.keys (Plugin.assign_from target source)).
Proof.
  revert target.
  induction source as [ | [k0 v0] source IH ]; intros target H; [ exact H | ].
  cbn [Plugin.assign_from].
  destruct (String.eqb k0 "__proto__") eqn:E; [ apply IH, H | ].
  apply IH. intros Hin.
  destruct (in_keys_prop_set _ _ _ _ Hin) as [Hin' | Heq]; [ tauto | ].
  rewrite <- Heq, String.eqb_refl in E. discriminate E.
Qed.

Lemma prop_get_not_key (o : Plugin.Settings) (k : string) :
  ~ In k (Plugin.keys o) -> Plugin.prop_get o k = None.
Proof.
  induction o as [ | [k0 v0] o IH ]; cbn; intros H; [ reflexivity | ].
  destruct (String.eqb k k0) eqn:E.
  - apply String.eqb_eq in E. subst k0. tauto.
  - apply IH. tauto.
Qed.

(** In an object, whose keys are distinct, the order of the entries does
    not matter to a read. *)
Lemma prop_get_rev (o : Plugin.Settings) (k : string) :
  NoDup (Plugin.keys o) -> Plugin.prop_get (rev o) k = Plugin.prop_get o k.
Proof.
  induction o as [ | [k0 v0] o IH ]; cbn; intros H; [ reflexivity | ].
  inversion H as [ | ? ? Hnotin Hnodup ]; subst.
  rewrite prop_get_app, (IH Hnodup). cbn.
  destruct (String.eqb k k0) eqn:E; [ | destruct (Plugin.prop_get o k); reflexivity ].
  apply String.eqb_eq in E. subst k0.
  now rewrite (prop_get_not_key _ _ Hnotin).
Qed.

Lemma reads_after_onload (stored : option Plugin.Settings) (k : string) :
  match stored with
  | Some d => NoDup (Plugin.keys d)
  | None => True
  end ->
  k <> "__proto__" ->
  Plugin.prop_get (Plugin.settings (Plugin.onload stored)) k
    = Plugin.stored_or_default stored k.
Proof.
  intros Hwf Hk. unfold Plugin.onload, Plugin.Object_assign, Plugin.stored_or_default.
  cbn [fold_left Plugin.settings].
  destruct stored as [d | ]; [ | reflexivity ].
  rewrite (prop_get_assign_from d _ k Hk), (prop_get_rev _ k Hwf).
  destruct (Plugin.prop_get d k); reflexivity.
Qed.

(** X1: after [onload], every setting other than [__proto__] reads as the
    data file has it, and as the default where the data file does not
    define it; an entry [__proto__] of the data file is dropped, the
    settings have no own property of that name; with no data file the
    settings are the defaults. *)
Theorem onload_reads_stored_or_default (stored : option Plugin.Settings) (k : string) :
  match stored with
  | Some d => NoDup (Plugin.keys d)
  | None => True
  end ->
  (k <> "__proto__" ->
     Plugin.prop_get (Plugin.settings (Plugin.onload stored)) k
       = Plugin.stored_or_default stored k) /\
  Plugin.prop_get (Plugin.settings (Plugin.onload stored)) "__proto__" = None /\
  (stored = None -> Plugin.settings (Plugin.onload stored) = Plugin.DEFAULT_SETTINGS).
Proof.
  intros Hwf. split; [ | split ].
  - intros Hk. apply reads_after_onload; assumption.
  - apply prop_get_not_key.
    unfold Plugin.onload, Plugin.Object_assign. cbn [fold_left Plugin.settings].
    destruct stored as [d | ].
    + apply assign_from_no_proto. cbn. intuition discriminate.
    + cbn. intuition discriminate.
  - intros ->. reflexivity.
Qed.

Lemma onload_reads_stored_or_default_witness :
  Plugin.prop_get
    (Plugin.settings
       (Plugin.onload (Some [ ("model", "gpt-4o"); ("__proto__", "x") ]))) "model"
    = Some "gpt-4o" /\
  Plugin.prop_get
    (Plugin.settings
       (Plugin.onload (Some [ ("model", "gpt-4o"); ("__proto__", "x") ]))) "openai_api_key"
    = Some "sk-..." /\
  Plugin.prop_get
    (Plugin.settings
       (Plugin.onload (Some [ ("model", "gpt-4o"); ("__proto__", "x") ]))) "__proto__"
    = None.
Proof.
  split; [ | split ].
  - apply (proj1 (onload_reads_stored_or_default
                    (Some [ ("model", "gpt-4o"); ("__proto__", "x") ]) "model"
                    ltac:(repeat constructor; cbn; intuition discriminate))).
    discriminate.
  - apply (proj1 (onload_reads_stored_or_default
                    (Some [ ("model", "gpt-4o"); ("__proto__", "x") ]) "openai_api_key"
                    ltac:(repeat constructor; cbn; intuition discriminate))).
    discriminate.
  - apply (proj1 (proj2 (onload_reads_stored_or_default
                           (Some [ ("model", "gpt-4o"); ("__proto__", "x") ]) "model"
                           ltac:(repeat constructor; cbn; intuition discriminate)))).
Defined.

(** *** The shape of the settings object *)

Lemma NoDup_prop_set (o : Plugin.Settings) (k v : string) :
  NoDup (Plugin.keys o) -> NoDup (Plugin.keys (Plugin.prop_set o k v)).
Proof.
  induction o as [ | [k0 v0] o IH ]; cbn; intros H.
  - constructor; [ intros [] | constructor ].
  - inversion H as [ | ? ? Hnotin Hnodup ]; subst.
    destruct (String.eqb k k0) eqn:E; cbn; [ exact H | ].
    constructor; [ | apply IH, Hnodup ].
    intros Hin. destruct (in_keys_prop_set _ _ _ _ Hin) as [Hin' | ->]; [ tauto | ].
    now rewrite String.eqb_refl in E.
Qed.

Lemma prop_set_new (o : Plugin.Settings) (k v : string) :
  ~ In k (Plugin.keys o) -> Plugin.prop_set o k v = (o ++ [(k, v)])%list.
Proof.
  induction o as [ | [k0 v0] o IH ]; cbn; intros H; [ reflexivity | ].
  destruct (String.eqb k k0) eqn:E.
  - apply String.eqb_eq in E. subst k0. tauto.
  - rewrite IH by tauto. reflexivity.
Qed.

Lemma defaults_first_prop_set (s : Plugin.Settings) (k v : string) :
  k <> "__proto__" ->
  Plugin.defaults_first s -> Plugin.defaults_first (Plugin.prop_set s k v).
Proof.
  intros Hk (Hnodup & Hproto & x & y & z & extra & ->). split; [ | split ].
  - apply NoDup_prop_set, Hnodup.
  - intros Hin. destruct (in_keys_prop_set _ _ _ _ Hin) as [Hin' | Heq]; auto.
  - cbn.
    destruct (String.eqb k "openai_api_key"); [ eauto 6 | ].
    destruct (String.eqb k "initial_prompt"); [ eauto 6 | ].
    destruct (String.eqb k "model"); eauto 6.
Qed.

Lemma defaults_first_assign_from (source target : Plugin.Settings) :
  Plugin.defaults_first target ->
  Plugin.defaults_first (Plugin.assign_from target source).
Proof.
  revert target.
  induction source as [ | [k v] source IH ]; intros target H; [ exact H | ].
  cbn [Plugin.assign_from].
  destruct (String.eqb k "__proto__") eqn:E; [ apply IH, H | ].
  apply IH, defaults_first_prop_set; [ | exact H ].
  now apply String.eqb_neq.
Qed.

Lemma defaults_first_DEFAULT : Plugin.defaults_first Plugin.DEFAULT_SETTINGS.
Proof.
  split; [ | split ].
  - repeat constructor; cbn; intuition discriminate.
  - cbn. intuition discriminate.
  - unfold Plugin.DEFAULT_SETTINGS. eauto 6.
Qed.

Lemma defaults_first_onload (stored : option Plugin.Settings) :
  Plugin.defaults_first (Plugin.settings (Plugin.onload stored)).
Proof.
  unfold Plugin.onload, Plugin.Object_assign. cbn [fold_left Plugin.settings].
  destruct stored as [d | ].
  - apply defaults_first_assign_from, defaults_first_DEFAULT.
  - apply defaults_first_DEFAULT.
Qed.

Lemma defaults_first_apply_edit (e : Plugin.Edit) (p : Plugin.MyPlugin) :
  Plugin.defaults_first (Plugin.settings p) ->
  Plugin.defaults_first (Plugin.settings (Plugin.apply_edit e p)).
Proof.
  intros H. destruct e; cbn [Plugin.apply_edit Plugin.onChange_openai_api_key
    Plugin.onChange_initial_prompt Plugin.onChange_model Plugin.saveSettings
    Plugin.settings];
    (apply defaults_first_prop_set; [ discriminate | exact H ]).
Qed.

Lemma defaults_first_apply_edits (es : list Plugin.Edit) (p : Plugin.MyPlugin) :
  Plugin.defaults_first (Plugin.settings p) ->
  Plugin.defaults_first (Plugin.settings (Plugin.apply_edits es p)).
Proof.
  revert p. induction es as [ | e es IH ]; intros p H; [ exact H | ].
  apply (IH (Plugin.apply_edit e p)), defaults_first_apply_edit, H.
Qed.

(** Properties that the target does not have yet are appended in order. *)
Lemma assign_from_fresh (source target : Plugin.Settings) :
  NoDup (Plugin.keys (target ++ source)%list) ->
  ~ In "__proto__" (Plugin.keys source) ->
  Plugin.assign_from target source = (target ++ source)%list.
Proof.
  revert target.
  induction source as [ | [k v] source IH ]; intros target H Hproto.
  - cbn. now rewrite app_nil_r.
  - cbn [Plugin.assign_from].
    assert (Hk : String.eqb k "__proto__" = false).
    { apply String.eqb_neq. intros ->. apply Hproto. now left. }
    rewrite Hk.
    assert (Hnotin : ~ In k (Plugin.keys target)).
    { unfold Plugin.keys in *. rewrite map_app in H. cbn in H.
      apply NoDup_remove_2 in H. intros Hin. apply H, in_or_app. now left. }
    rewrite (prop_set_new _ _ v Hnotin), IH; rewrite <- ?app_assoc;
      [ reflexivity | exact H | ].
    intros Hin. apply Hproto. now right.
Qed.

(** Merging a settings object of that shape over the defaults gives the
    object back. *)
Lemma assign_defaults_first (s : Plugin.Settings) :
  Plugin.defaults_first s ->
  Plugin.Object_assign [] [Some Plugin.DEFAULT_SETTINGS; Some s] = s.
Proof.
  intros (Hnodup & Hproto & x & y & z & extra & ->).
  unfold Plugin.Object_assign. cbn.
  apply (assign_from_fresh extra
           [ ("openai_api_key", x); ("initial_prompt", y); ("model", z) ]).
  - exact Hnodup.
  - intros Hin. apply Hproto. cbn. auto.
Qed.

Lemma apply_edit_saved (e : Plugin.Edit) (p : Plugin.MyPlugin) :
  Plugin.data (Plugin.apply_edit e p) = Some (Plugin.settings (Plugin.apply_edit e p)).
Proof. destruct e; reflexivity. Qed.

Lemma apply_edits_saved (es : list Plugin.Edit) (p : Plugin.MyPlugin) :
  Plugin.data p = Some (Plugin.settings p) ->
  Plugin.data (Plugin.apply_edits es p) = Some (Plugin.settings (Plugin.apply_edits es p)).
Proof.
  revert p. induction es as [ | e es IH ]; intros p H; [ exact H | ].
  apply (IH (Plugin.apply_edit e p)), apply_edit_saved.
Qed.

(** X2: whatever the data file held and whatever was edited in the
    settings tab since, loading the plugin again from its data file gives
    exactly the plugin state there was: every edit is persisted, and
    nothing else changes on the round trip through the file. *)
Theorem reload_after_edits (stored : option Plugin.Settings) (es : list Plugin.Edit) :
  Plugin.reload (Plugin.apply_edits es (Plugin.onload stored))
    = Plugin.apply_edits es (Plugin.onload stored).
Proof.
  destruct es as [ | e es ]; [ reflexivity | ].
  set (p := Plugin.apply_edits (e :: es) (Plugin.onload stored)).
  assert (Hsaved : Plugin.data p = Some (Plugin.settings p)).
  { apply (apply_edits_saved es (Plugin.apply_edit e (Plugin.onload stored))),
      apply_edit_saved. }
  assert (Hshape : Plugin.defaults_first (Plugin.settings p)).
  { apply defaults_first_apply_edits, defaults_first_onload. }
  unfold Plugin.reload, Plugin.onload. rewrite Hsaved.
  rewrite (assign_defaults_first _ Hshape).
  destruct p as [s d]. cbn in *. now rewrite Hsaved.
Qed.

Lemma reads_after_edit (e : Plugin.Edit) (p : Plugin.MyPlugin) (k : string) :
  Plugin.prop_get (Plugin.settings (Plugin.apply_edit e p)) k =
  if String.eqb k (Plugin.edit_key e) then Some (Plugin.edit_value e)
  else Plugin.prop_get (Plugin.settings p) k.
Proof. destruct e; cbn; apply prop_get_set. Qed.

(** X3: after any sequence of edits in the settings tab, a setting reads
    as the last edit of that setting wrote it, and a setting that no edit
    touched reads as before; the data file then holds exactly the settings
    in memory. *)
Theorem edits_read_back (e : Plugin.Edit) (es : list Plugin.Edit)
    (p : Plugin.MyPlugin) (k : string) :
  Plugin.prop_get (Plugin.settings (Plugin.apply_edits (e :: es) p)) k =
    match Plugin.last_edit (e :: es) k with
    | Some v => Some v
    | None => Plugin.prop_get (Plugin.settings p) k
    end /\
  Plugin.data (Plugin.apply_edits (e :: es) p)
    = Some (Plugin.settings (Plugin.apply_edits (e :: es) p)).
Proof.
  split.
  - generalize (e :: es) as l. clear e es. intros l. revert p.
    induction l as [ | e es IH ]; intros p; [ reflexivity | ].
    change (Plugin.apply_edits (e :: es) p)
      with (Plugin.apply_edits es (Plugin.apply_edit e p)).
    rewrite IH, reads_after_edit. cbn [Plugin.last_edit].
    destruct (Plugin.last_edit es k); [ reflexivity | ].
    destruct (String.eqb k (Plugin.edit_key e)); reflexivity.
  - apply (apply_edits_saved es (Plugin.apply_edit e p)), apply_edit_saved.
Qed.

Lemma reads_after_edits (es : list Plugin.Edit) (p : Plugin.MyPlugin) (k : string) :
  Plugin.prop_get (Plugin.settings (Plugin.apply_edits es p)) k =
  match Plugin.last_edit es k with
  | Some v => Some v
  | None => Plugin.prop_get (Plugin.settings p) k
  end.
Proof.
  revert p. induction es as [ | e es IH ]; intros p; [ reflexivity | ].
  change (Plugin.apply_edits (e :: es) p)
    with (Plugin.apply_edits es (Plugin.apply_edit e p)).
  rewrite IH, reads_after_edit. cbn [Plugin.last_edit].
  destruct (Plugin.last_edit es k); [ reflexivity | ].
  destruct (String.eqb k (Plugin.edit_key e)); reflexivity.
Qed.

Lemma current_reads (stored : option Plugin.Settings) (es : list Plugin.Edit) (k : string) :
  match stored with
  | Some d => NoDup (Plugin.keys d)
  | None => True
  end ->
  k <> "__proto__" ->
  Plugin.prop_get (Plugin.settings (Plugin.apply_edits es (Plugin.onload stored))) k
    = Plugin.current stored es k.
Proof.
  intros Hwf Hk. unfold Plugin.current.
  now rewrite reads_after_edits, (reads_after_onload stored k Hwf Hk).
Qed.

Lemma stored_or_default_defined (stored : option Plugin.Settings) (k : string) :
  In k (Plugin.keys Plugin.DEFAULT_SETTINGS) ->
  exists v, Plugin.stored_or_default stored k = Some v.
Proof.
  intros Hin. unfold Plugin.stored_or_default.
  assert (Hdef : exists v, Plugin.prop_get Plugin.DEFAULT_SETTINGS k = Some v).
  { cbn in Hin. destruct Hin as [<- | [<- | [<- | []]]]; cbn; eauto. }
  destruct stored as [d | ]; [ | exact Hdef ].
  destruct (Plugin.prop_get d k); eauto.
Qed.

Lemma current_defined (stored : option Plugin.Settings) (es : list Plugin.Edit)
    (k : string) :
  In k (Plugin.keys Plugin.DEFAULT_SETTINGS) ->
  exists v, Plugin.current stored es k = Some v.
Proof.
  intros Hin. unfold Plugin.current.
  destruct (Plugin.last_edit es k); eauto using stored_or_default_defined.
Qed.

(** The client of the modal, read off the current settings. *)
Lemma client_after_edits (stored : option Plugin.Settings) (es : list Plugin.Edit) :
  match stored with
  | Some d => NoDup (Plugin.keys d)
  | None => True
  end ->
  Plugin.AskLLMModal_openai (Plugin.apply_edits es (Plugin.onload stored)) =
  match Plugin.current stored es "openai_api_key",
        Plugin.current stored es "model",
        Plugin.current stored es "initial_prompt" with
  | Some a, Some m, Some i => Some (Main.constructor a m i)
  | _, _, _ => None
  end.
Proof.
  intros Hwf. unfold Plugin.AskLLMModal_openai.
  rewrite (current_reads stored es "openai_api_key" Hwf) by discriminate.
  rewrite (current_reads stored es "model" Hwf) by discriminate.
  rewrite (current_reads stored es "initial_prompt" Hwf) by discriminate.
  reflexivity.
Qed.

Ltac current_client stored es Hwf a m i Ha Hm Hi Hclient :=
  destruct (current_defined stored es "openai_api_key") as [a Ha]; [ cbn; auto | ];
  destruct (current_defined stored es "model") as [m Hm]; [ cbn; auto | ];
  destruct (current_defined stored es "initial_prompt") as [i Hi]; [ cbn; auto | ];
  pose proof (client_after_edits stored es Hwf) as Hclient;
  rewrite Ha, Hm, Hi in Hclient.

(** X4: the client of a modal opened after loading the plugin and editing
    settings always exists, and each of its three fields is the last value
    edited for it, else the value of the data file, else the default: a
    modal opened after an edit works with the new credential, model and
    prompt. *)
Theorem modal_client_is_current (stored : option Plugin.Settings) (es : list Plugin.Edit) :
  match stored with
  | Some d => NoDup (Plugin.keys d)
  | None => True
  end ->
  exists a m i,
    Plugin.current stored es "openai_api_key" = Some a /\
    Plugin.current stored es "model" = Some m /\
    Plugin.current stored es "initial_prompt" = Some i /\
    Plugin.AskLLMModal_openai (Plugin.apply_edits es (Plugin.onload stored))
      = Some (Main.constructor a m i).
Proof.
  intros Hwf.
  current_client stored es Hwf a m i Ha Hm Hi Hclient.
  exists a, m, i. repeat split; assumption.
Qed.

Lemma modal_client_is_current_witness :
  exists a m i,
    Plugin.current (Some [ ("model", "gpt-4o") ])
                   [ Plugin.EditApiKey "sk-old"; Plugin.EditApiKey "sk-new" ]
                   "openai_api_key" = Some a /\
    Plugin.current (Some [ ("model", "gpt-4o") ])
                   [ Plugin.EditApiKey "sk-old"; Plugin.EditApiKey "sk-new" ]
                   "model" = Some m /\
    Plugin.current (Some [ ("model", "gpt-4o") ])
                   [ Plugin.EditApiKey "sk-old"; Plugin.EditApiKey "sk-new" ]
                   "initial_prompt" = Some i /\
    Plugin.AskLLMModal_openai
      (Plugin.apply_edits [ Plugin.EditApiKey "sk-old"; Plugin.EditApiKey "sk-new" ]
                          (Plugin.onload (Some [ ("model", "gpt-4o") ])))
      = Some (Main.constructor a m i).
Proof.
  apply (@modal_client_is_current (Some [ ("model", "gpt-4o") ])
           [ Plugin.EditApiKey "sk-old"; Plugin.EditApiKey "sk-new" ]).
  repeat constructor; cbn; intuition.
Defined.

(* ================================================================= *)
(** ** More on [query] *)

Section Passing.
Variable net : Transport.
Variables context question : string.
Variable w : World Main.OpenAIAPI.

(** X5: when the call of [fetch] rejects (the network failed, or the
    runtime refused the request), [query] rejects with that very error: it
    is not wrapped, no body is read, and [fetch] is not called again.  At
    most the request of that one call has gone on the wire. *)
Theorem query_transport_failure (e : JsError) :
  net (Fetch.calls w) (post_for (this w) context question) = Rejected e ->
  fst (Main.query net context question w) = Rejected e /\
  Fetch.calls (snd (Main.query net context question w))
    = (Fetch.calls w ++ [post_for (this w) context question])%list /\
  Fetch.issued (Fetch.calls (snd (Main.query net context question w)))
    = (Fetch.issued (Fetch.calls w)
         ++ Fetch.issued_by (post_for (this w) context question))%list.
Proof.
  unfold Fetch.calls. intros Hnet. split; [ | split ].
  - rewrite post_for_eq in Hnet. run_query. rewrite Hnet. reflexivity.
  - rewrite query_world. reflexivity.
  - rewrite query_world. cbn [sent]. apply issued_snoc.
Qed.

(** X6: a success status whose body does not parse makes [query] reject
    with the error of [response.json()] as it is; the status-code message
    is made for failure statuses only. *)
Theorem query_success_unparsed (resp : Response) (e : JsError) :
  net (sent w) (post_for (this w) context question) = Resolved resp ->
  ok resp = true ->
  json_result resp = Rejected e ->
  fst (Main.query net context question w) = Rejected e.
Proof.
  intros Hnet Hok Hjson. rewrite post_for_eq in Hnet. run_query.
  rewrite Hnet, Hok. cbn [negb]. rewrite Hjson. reflexivity.
Qed.

(** X7: on a failure status [query] never resolves, whatever the body is:
    every path of that branch ends in a rejection. *)
Theorem query_failure_status_rejects (resp : Response) :
  net (sent w) (post_for (this w) context question) = Resolved resp ->
  ok resp = false ->
  exists e, fst (Main.query net context question w) = Rejected e.
Proof.
  intros Hnet Hok.
  destruct (json_result resp) as [errorData | e] eqn:Hjson.
  - rewrite (query_failure_parsed _ _ _ _ Hnet Hok Hjson).
    destruct (getProp (VJson errorData) K_error) as [v1 | e]; [ | eauto ].
    destruct (getProp v1 K_message) as [v2 | e]; [ | eauto ].
    unfold throw_new_Error. destruct (new_Error v2) as [err | e]; eauto.
  - rewrite (query_failure_unparsed _ _ _ _ Hnet Hok Hjson). eauto.
Qed.

(** X8: on a failure status with an error value that can be read but has
    no [message] (an object without that property, a string, a number),
    [query] fails with an [Error] whose message is empty. *)
Theorem query_error_without_message (resp : Response) (errorData : json) :
  net (sent w) (post_for (this w) context question) = Resolved resp ->
  ok resp = false ->
  json_result resp = Resolved errorData ->
  nullish (error_of errorData) = false ->
  opt_get (error_of errorData) K_message = VUndefined ->
  fst (Main.query net context question w) = Rejected (mkJsError "Error" "").
Proof.
  intros Hnet Hok Hjson Herr Hmsg.
  rewrite (@query_error_message_any _ _ _ _ _ _ Hnet Hok Hjson Herr), Hmsg.
  reflexivity.
Qed.
End Passing.

Lemma query_transport_failure_witness :
  fst (Main.query (fun _ _ => Rejected (mkJsError "TypeError" "Failed to fetch"))
                  "some note" "why?" w0)
    = Rejected (mkJsError "TypeError" "Failed to fetch") /\
  Fetch.calls (snd (Main.query (fun _ _ => Rejected (mkJsError "TypeError" "Failed to fetch"))
                               "some note" "why?" w0))
    = (Fetch.calls w0 ++ [post_for (this w0) "some note" "why?"])%list /\
  Fetch.issued
    (Fetch.calls (snd (Main.query
                         (fun _ _ => Rejected (mkJsError "TypeError" "Failed to fetch"))
                         "some note" "why?" w0)))
    = (Fetch.issued (Fetch.calls w0)
         ++ Fetch.issued_by (post_for (this w0) "some note" "why?"))%list.
Proof.
  apply (query_transport_failure
           (fun _ _ => Rejected (mkJsError "TypeError" "Failed to fetch"))
           "some note" "why?" w0 (mkJsError "TypeError" "Failed to fetch")).
  reflexivity.
Defined.

Lemma query_success_unparsed_witness :
  fst (Main.query (always (Response_of 200 (Rejected not_json))) "some note" "why?" w0)
    = Rejected not_json.
Proof.
  apply (query_success_unparsed
           (always (Response_of 200 (Rejected not_json))) "some note" "why?" w0
           (Response_of 200 (Rejected not_json)) not_json);
    reflexivity.
Defined.

Lemma query_failure_status_rejects_witness :
  exists e,
    fst (Main.query (always (Response_of 404 (Resolved body_42))) "some note" "why?" w0)
      = Rejected e.
Proof.
  apply (query_failure_status_rejects
           (always (Response_of 404 (Resolved body_42))) "some note" "why?" w0
           (Response_of 404 (Resolved body_42)));
    reflexivity.
Defined.

Lemma query_error_without_message_witness :
  fst (Main.query
         (always (Response_of 502 (Resolved (JObj [ ("error", JStr "bad gateway") ]))))
         "some note" "why?" w0)
    = Rejected (mkJsError "Error" "").
Proof.
  apply (query_error_without_message
           (always (Response_of 502 (Resolved (JObj [ ("error", JStr "bad gateway") ]))))
           "some note" "why?" w0
           (Response_of 502 (Resolved (JObj [ ("error", JStr "bad gateway") ])))
           (JObj [ ("error", JStr "bad gateway") ]));
    reflexivity.
Defined.

(* ================================================================= *)
(** ** The modal *)

Ltac run_submit :=
  unfold Plugin.on_keydown, Plugin.on_click, Plugin.submitPrompt, bind, read,
    Plugin.modify, try_catch, Plugin.on_openai, lift, ret;
  cbn [fst snd this sent Plugin.current_file_content Plugin.set_outputArea Plugin.log
       Plugin.ui Plugin.textInput Plugin.openai Plugin.notices Plugin.console].

Section Submit.
Variable net : Transport.
Variable w : World Plugin.Session.

Lemma submitted_world :
  snd (Plugin.submitted_query net w) =
  mkWorld (Plugin.openai (this w)) (sent w ++ [Plugin.submitted_post (this w)]).
Proof. unfold Plugin.submitted_query. rewrite query_world. reflexivity. Qed.

Lemma submit_resolved (v : jsval) (shown : string) :
  fst (Plugin.submitted_query net w) = Resolved v ->
  Plugin.to_value v = Resolved shown ->
  Plugin.submitPrompt net w =
    (Resolved tt,
     mkWorld (Plugin.set_outputArea (Plugin.set_value shown) (Plugin.started (this w)))
             (sent w ++ [Plugin.submitted_post (this w)])).
Proof.
  intros Hq Hv. pose proof submitted_world as Hw.
  unfold Plugin.submitted_query, Plugin.prompt_of in *.
  run_submit. rewrite Hq, Hv, Hw. reflexivity.
Qed.

Lemma submit_rejected (e : JsError) :
  fst (Plugin.submitted_query net w) = Rejected e \/
  (exists v, fst (Plugin.submitted_query net w) = Resolved v /\
             Plugin.to_value v = Rejected e) ->
  Plugin.submitPrompt net w =
    (Resolved tt,
     mkWorld (Plugin.set_outputArea (Plugin.set_visibility "hidden")
                (Plugin.new_Notice ("Error: " ++ message e)
                   (Plugin.log (Plugin.console_error "Error:" e)
                      (Plugin.started (this w)))))
             (sent w ++ [Plugin.submitted_post (this w)])).
Proof.
  intros H. pose proof submitted_world as Hw.
  unfold Plugin.submitted_query, Plugin.prompt_of in *.
  run_submit.
  destruct H as [Hq | (v & Hq & Hv)].
  - rewrite Hq, Hw. reflexivity.
  - rewrite Hq, Hv, Hw. reflexivity.
Qed.

(** Every submission ends in one of the two ways. *)
Lemma submit_cases :
  (exists v shown,
     fst (Plugin.submitted_query net w) = Resolved v /\
     Plugin.to_value v = Resolved shown) \/
  (exists e,
     fst (Plugin.submitted_query net w) = Rejected e \/
     (exists v, fst (Plugin.submitted_query net w) = Resolved v /\
                Plugin.to_value v = Rejected e)).
Proof.
  destruct (fst (Plugin.submitted_query net w)) as [v | e]; [ | eauto 6 ].
  destruct (Plugin.to_value v) as [shown | e] eqn:Hv; eauto 8.
Qed.

Lemma submit_settles :
  fst (Plugin.submitPrompt net w) = Resolved tt /\
  sent (snd (Plugin.submitPrompt net w))
    = (sent w ++ [Plugin.submitted_post (this w)])%list.
Proof.
  destruct submit_cases as [(v & shown & Hq & Hv) | (e & H)].
  - rewrite (submit_resolved v shown Hq Hv). split; reflexivity.
  - rewrite (submit_rejected e H). split; reflexivity.
Qed.


Lemma submit_rejected_notices (e : JsError) :
  fst (Plugin.submitted_query net w) = Rejected e ->
  Plugin.notices (this (snd (Plugin.submitPrompt net w)))
    = (Plugin.notices (this w) ++ [("Error: " ++ message e)%string])%list.
Proof.
  intros Hq. rewrite (submit_rejected e (or_introl Hq)). reflexivity.
Qed.


(** X9: a submission never rejects and makes exactly one call of [fetch],
    with the request built from the document text captured when the modal
    opened and from the text of the prompt box, whatever that text is (an
    empty prompt is submitted too); at most the request of that call goes
    on the wire.  The submission leaves the client, the captured text and
    the prompt box as they were, and the prompt is logged first. *)
Theorem submit_posts_once :
  fst (Plugin.submitPrompt net w) = Resolved tt /\
  Fetch.calls (snd (Plugin.submitPrompt net w))
    = (Fetch.calls w ++ [post_for (Plugin.openai (this w))
                                  (Plugin.current_file_content (this w))
                                  (Plugin.prompt_of (this w))])%list /\
  Fetch.issued (Fetch.calls (snd (Plugin.submitPrompt net w)))
    = (Fetch.issued (Fetch.calls w)
         ++ Fetch.issued_by (post_for (Plugin.openai (this w))
                                      (Plugin.current_file_content (this w))
                                      (Plugin.prompt_of (this w))))%list /\
  Plugin.openai (this (snd (Plugin.submitPrompt net w))) = Plugin.openai (this w) /\
  Plugin.current_file_content (this (snd (Plugin.submitPrompt net w)))
    = Plugin.current_file_content (this w) /\
  Plugin.textInput (Plugin.ui (this (snd (Plugin.submitPrompt net w))))
    = Plugin.textInput (Plugin.ui (this w)) /\
  exists rest,
    Plugin.console (this (snd (Plugin.submitPrompt net w)))
      = (Plugin.console (this w)
           ++ Plugin.console_log "Submitted prompt:" (Plugin.prompt_of (this w)) :: rest)%list.
Proof.
  unfold Fetch.calls.
  destruct submit_cases as [(v & shown & Hq & Hv) | (e & H)].
  - rewrite (submit_resolved v shown Hq Hv). cbn [fst snd this sent].
    repeat split; try apply issued_snoc. exists []. reflexivity.
  - rewrite (submit_rejected e H). cbn [fst snd this sent].
    repeat split; try apply issued_snoc. exists [Plugin.console_error "Error:" e].
    cbn. now rewrite <- app_assoc.
Qed.
End Submit.

Lemma sample_session_opened :
  exists s,
    Plugin.genie_callback (Plugin.onload None) (Some "some note") [] [] = Some s /\
    Plugin.sample_session = Plugin.type_prompt "why?" s.
Proof. eexists. split; reflexivity. Qed.

Section Outcomes.
Variable net : Transport.
Variable w : World Plugin.Session.



(** X12: on a failure status the notice is [Error: HTTP error! status: ]
    with the status code when the body is not JSON, and [Error: ] with the
    text of [error.message] when the body carries one. *)
Theorem submit_http_failure_notice (resp : Response) :
  net (sent w) (Plugin.submitted_post (this w)) = Resolved resp ->
  ok resp = false ->
  (forall e, json_result resp = Rejected e ->
     Plugin.notices (this (snd (Plugin.submitPrompt net w)))
       = (Plugin.notices (this w)
            ++ [("Error: HTTP error! status: " ++ nat_to_string (status resp))%string])%list) /\
  (forall errorData text, json_result resp = Resolved errorData ->
     opt_get (error_of errorData) K_message = VJson (JStr text) ->
     Plugin.notices (this (snd (Plugin.submitPrompt net w)))
       = (Plugin.notices (this w) ++ [("Error: " ++ text)%string])%list).
Proof.
  intros Hnet Hok. split.
  - intros e Hjson.
    assert (Hq : fst (Plugin.submitted_query net w)
                 = Rejected (mkJsError "Error"
                               ("HTTP error! status: " ++ nat_to_string (status resp)))).
    { unfold Plugin.submitted_query.
      apply (@query_failure_unparsed net _ _ (mkWorld (Plugin.openai (this w)) (sent w))
               resp Hnet e Hok Hjson). }
    apply (submit_rejected_notices net w _ Hq).
  - intros errorData text Hjson Hmsg.
    assert (Herr : nullish (error_of errorData) = false).
    { destruct (nullish (error_of errorData)) eqn:E; [ | reflexivity ].
      rewrite (opt_get_nullish _ K_message E) in Hmsg. discriminate Hmsg. }
    assert (Hq : fst (Plugin.submitted_query net w) = Rejected (mkJsError "Error" text)).
    { unfold Plugin.submitted_query.
      rewrite (@query_error_message_any net _ _ (mkWorld (Plugin.openai (this w)) (sent w))
                 resp errorData Hnet Hok Hjson Herr), Hmsg.
      reflexivity. }
    apply (submit_rejected_notices net w _ Hq).
Qed.


(** X14: in the prompt box, Enter without Shift submits exactly as a click
    on the button does and suppresses the default action of the key; any
    other key, and Enter with Shift, leaves everything as it is and sends
    nothing. *)
Theorem keydown_submits_on_enter (e : Plugin.KeyboardEvent) :
  (Plugin.key e = "Enter" -> Plugin.shiftKey e = false ->
     Plugin.on_keydown net e w = (Resolved true, snd (Plugin.on_click net w))) /\
  (Plugin.key e <> "Enter" \/ Plugin.shiftKey e = true ->
     Plugin.on_keydown net e w = (Resolved false, w)).
Proof.
  split.
  - intros Hkey Hshift. unfold Plugin.on_keydown, Plugin.on_click.
    rewrite Hkey, Hshift. cbn [String.eqb Ascii.eqb Bool.eqb andb negb].
    unfold bind, ret.
    pose proof (proj1 (submit_settles net w)) as Hfst.
    destruct (Plugin.submitPrompt net w) as [c w']. cbn in *. now rewrite Hfst.
  - intros H. unfold Plugin.on_keydown.
    assert (Hcond : String.eqb (Plugin.key e) "Enter" && negb (Plugin.shiftKey e) = false).
    { destruct H as [Hkey | Hshift].
      - apply String.eqb_neq in Hkey. now rewrite Hkey.
      - rewrite Hshift. apply andb_false_r. }
    rewrite Hcond. unfold ret. now destruct w.
Qed.
End Outcomes.


(** The carriage return of the answer is not in what the output area
    reads. *)
Lemma crlf_reads_as_line_feed :
  Plugin.normalize_newlines
    ("first" ++ String (ascii_of_nat 13) (String (ascii_of_nat 10) "second"))
    = "first" ++ String (ascii_of_nat 10) "second" /\
  Plugin.normalize_newlines ("first" ++ String (ascii_of_nat 13) "second")
    = "first" ++ String (ascii_of_nat 10) "second".
Proof. split; reflexivity. Qed.


Lemma submit_http_failure_notice_witness :
  Plugin.notices
    (this (snd (Plugin.submitPrompt (always (Response_of 500 (Rejected not_json)))
                                    (mkWorld Plugin.sample_session []))))
    = ["Error: HTTP error! status: 500"].
Proof.
  apply (proj1 (submit_http_failure_notice
                  (always (Response_of 500 (Rejected not_json)))
                  (mkWorld Plugin.sample_session [])
                  (Response_of 500 (Rejected not_json)) eq_refl eq_refl)
               not_json eq_refl).
Defined.


(** X15: the command opens the modal only over a non-empty document: with
    no active markdown view, or an empty one, the modal closes itself and
    nothing can be submitted.  Otherwise it opens on the text of the
    document, with an empty prompt box and a hidden, read-only, empty
    output area, and shows no notice of its own. *)
Theorem genie_opens_on_text_only
    (stored : option Plugin.Settings) (es : list Plugin.Edit)
    (active : option string) (notes : list string) (lines : list Plugin.ConsoleEntry) :
  match stored with
  | Some d => NoDup (Plugin.keys d)
  | None => True
  end ->
  (Plugin.falsy active = true ->
     Plugin.genie_callback (Plugin.apply_edits es (Plugin.onload stored))
                           active notes lines = None) /\
  (Plugin.falsy active = false ->
     exists s content,
       active = Some content /\
       Plugin.genie_callback (Plugin.apply_edits es (Plugin.onload stored))
                             active notes lines = Some s /\
       Plugin.current_file_content s = content /\
       Plugin.prompt_of s = "" /\
       Plugin.output_text s = "" /\
       Plugin.output_visibility s = Some "hidden" /\
       Plugin.readOnly (Plugin.outputArea (Plugin.ui s)) = true /\
       Plugin.notices s = notes).
Proof.
  intros Hwf.
  current_client stored es Hwf a m i Ha Hm Hi Hclient.
  unfold Plugin.genie_callback. rewrite Hclient. split.
  - destruct active as [ [ | c content ] | ]; cbn; intros H;
      try discriminate H; reflexivity.
  - destruct active as [ [ | c content ] | ]; cbn; intros H; try discriminate H.
    eexists. exists (String c content). repeat split.
Qed.

Lemma genie_opens_on_text_only_witness :
  Plugin.genie_callback
    (Plugin.apply_edits [ Plugin.EditModel "gpt-4o" ] (Plugin.onload None))
    (Some "") [] [] = None /\
  Plugin.genie_callback
    (Plugin.apply_edits [ Plugin.EditModel "gpt-4o" ] (Plugin.onload None))
    None [] [] = None.
Proof.
  split.
  - apply (proj1 (genie_opens_on_text_only None [ Plugin.EditModel "gpt-4o" ]
                    (Some "") [] [] I)).
    reflexivity.
  - apply (proj1 (genie_opens_on_text_only None [ Plugin.EditModel "gpt-4o" ]
                    None [] [] I)).
    reflexivity.
Defined.



(** In that sample the credential ends in a space, which the wire does not
    carry. *)
Lemma sample_credential_on_the_wire :
  Fetch.header_value ("Bearer " ++ "sk-new ") = Some "Bearer sk-new".
Proof. reflexivity. Qed.

(* ================================================================= *)
(** ** The request determines its inputs *)

Lemma append_assoc' (a b c : string) : (a ++ b) ++ c = a ++ (b ++ c).
Proof. induction a as [ | x a IH ]; cbn; [ reflexivity | now rewrite IH ]. Qed.

(** A reader takes back exactly the character that was escaped. *)
Lemma unquote_step_quote_char (c : ascii) (rest : string) :
  Wire.unquote_step (quote_char c ++ rest) = Some (c, rest).
Proof.
  destruct c as [ [ | ] [ | ] [ | ] [ | ] [ | ] [ | ] [ | ] [ | ] ]; reflexivity.
Qed.

Lemma unquote_step_dquote (rest : string) :
  Wire.unquote_step (dquote ++ rest) = None.
Proof. reflexivity. Qed.

(** Escaped strings are self-delimiting: the closing quote is found where
    the string ends, whatever the string contains and whatever follows. *)
Lemma quote_body_delimited (s1 s2 r1 r2 : string) :
  quote_body s1 ++ dquote ++ r1 = quote_body s2 ++ dquote ++ r2 ->
  s1 = s2 /\ r1 = r2.
Proof.
  revert s2.
  induction s1 as [ | c1 s1 IH ]; intros [ | c2 s2 ]; cbn [quote_body];
    rewrite ?append_assoc'; intros H.
  - cbn in H. injection H as ->. now split.
  - apply (f_equal Wire.unquote_step) in H.
    rewrite unquote_step_quote_char in H. discriminate H.
  - apply (f_equal Wire.unquote_step) in H.
    rewrite unquote_step_quote_char in H. discriminate H.
  - apply (f_equal Wire.unquote_step) in H.
    rewrite !unquote_step_quote_char in H.
    injection H as -> H. destruct (IH _ H) as [-> ->]. now split.
Qed.

Lemma append_inv_head (a x y : string) : a ++ x = a ++ y -> x = y.
Proof.
  induction a as [ | c a IH ]; cbn; intros H; [ exact H | ].
  injection H as H. apply IH, H.
Qed.

Ltac peel H := apply append_inv_head in H.

Ltac unquote H x :=
  apply quote_body_delimited in H; destruct H as [x H].

Lemma body_determines_inputs (m p ctx q m' p' ctx' q' : string) :
  JSON_stringify (Request_to_json (build_Request m p ctx q))
    = JSON_stringify (Request_to_json (build_Request m' p' ctx' q')) ->
  m = m' /\ p = p' /\ ctx = ctx' /\ q = q'.
Proof.
  intros H.
  cbn [JSON_stringify Request_to_json build_Request Message_to_json map join fst snd
       request_model messages role content] in H.
  unfold quote in H. rewrite !append_assoc' in H.
  repeat peel H. unquote H Hm.
  repeat peel H. unquote H Hp.
  repeat peel H. unquote H Hctx.
  repeat peel H. unquote H Hq.
  apply append_inv_head in Hctx.
  auto.
Qed.

(** X17: the call of [fetch] determines what went into it.  Two calls of
    [query] that, after the same history, have made the same calls of
    [fetch] were made on clients with the same credential, model and system
    prompt, with the same context and the same question: the escaping of
    the serialization loses nothing and keeps every string inside its
    quotes, so no context or question can pass for another one or for a
    further message.  Two calls that put the same request on the wire agree
    in the same way on model, system prompt, context and question, and
    their credentials give the same [Authorization] value (they differ at
    most in whitespace that the runtime strips). *)
Theorem request_determines_inputs
    (net net' : Transport) (context question context' question' : string)
    (w w' : World Main.OpenAIAPI) :
  (Fetch.calls w = Fetch.calls w' ->
   Fetch.calls (snd (Main.query net context question w))
     = Fetch.calls (snd (Main.query net' context' question' w')) ->
   this w = this w' /\ context = context' /\ question = question') /\
  (forall x,
     Fetch.issued (Fetch.calls (snd (Main.query net context question w)))
       = (Fetch.issued (Fetch.calls w) ++ [x])%list ->
     Fetch.issued (Fetch.calls (snd (Main.query net' context' question' w')))
       = (Fetch.issued (Fetch.calls w') ++ [x])%list ->
     Main.model (this w) = Main.model (this w') /\
     Main.initialPrompt (this w) = Main.initialPrompt (this w') /\
     context = context' /\ question = question' /\
     Fetch.header_value ("Bearer " ++ Main.apiKey (this w))
       = Fetch.header_value ("Bearer " ++ Main.apiKey (this w'))).
Proof.
  unfold Fetch.calls. rewrite !query_world. cbn [sent]. split.
  - intros Hlog H.
    rewrite Hlog in H. apply app_inv_head in H.
    pose proof (f_equal (fun l => hd (post_for (this w) context question) l) H) as Hpost.
    cbn [hd] in Hpost. clear H.
    pose proof (f_equal (fun r => body (init r)) Hpost) as Hbody.
    pose proof (f_equal (fun r => map snd (headers (init r))) Hpost) as Hkey.
    unfold post_for, post_of in Hbody, Hkey.
    cbn [body init headers map snd] in Hbody, Hkey.
    apply body_determines_inputs in Hbody.
    destruct Hbody as (Hm & Hp & Hctx & Hq).
    pose proof (f_equal (fun l => nth 1 l "") Hkey) as Hbearer.
    cbn [nth] in Hbearer. apply append_inv_head in Hbearer.
    repeat split; try assumption.
    destruct (this w) as [k m p], (this w') as [k' m' p']. cbn in *. now subst.
  - intros x H H'.
    rewrite issued_snoc in H, H'. apply app_inv_head in H, H'.
    rewrite issued_by_post_for in H, H'.
    destruct (Fetch.header_value ("Bearer " ++ Main.apiKey (this w))) as [v | ];
      [ | discriminate H ].
    destruct (Fetch.header_value ("Bearer " ++ Main.apiKey (this w'))) as [v' | ];
      [ | discriminate H' ].
    assert (Hx : Fetch.wire_post v
                   (build_Request (Main.model (this w)) (Main.initialPrompt (this w))
                                  context question)
                 = Fetch.wire_post v'
                     (build_Request (Main.model (this w')) (Main.initialPrompt (this w'))
                                    context' question')).
    { pose proof (f_equal (fun l => hd x l) H) as E.
      pose proof (f_equal (fun l => hd x l) H') as E'.
      cbn [hd] in E, E'. now rewrite E, E'. }
    pose proof (f_equal (fun r => body (init r)) Hx) as Hbody.
    pose proof (f_equal (fun r => map snd (headers (init r))) Hx) as Hkey.
    unfold Fetch.wire_post in Hbody, Hkey.
    cbn [body init headers map snd] in Hbody, Hkey.
    apply body_determines_inputs in Hbody.
    destruct Hbody as (Hm & Hp & Hctx & Hq).
    pose proof (f_equal (fun l => nth 1 l "") Hkey) as Hv.
    cbn [nth] in Hv.
    repeat split; try assumption. now rewrite Hv.
Qed.

Lemma request_determines_inputs_witness :
  Main.model (this w0) = Main.model (this w0) /\
  Main.initialPrompt (this w0) = Main.initialPrompt (this w0) /\
  "some note" = "some note" /\ "why?" = "why?" /\
  Fetch.header_value ("Bearer " ++ Main.apiKey (this w0))
    = Fetch.header_value
        ("Bearer " ++ Main.apiKey (Main.constructor "sk-... " "gpt-4o-mini"
                                     (Main.initialPrompt (this w0)))).
Proof.
  apply (proj2 (request_determines_inputs
                  (always (Response_of 200 (Resolved body_42)))
                  (always (Response_of 500 (Rejected not_json)))
                  "some note" "why?" "some note" "why?" w0
                  (mkWorld (Main.constructor "sk-... " "gpt-4o-mini"
                              (Main.initialPrompt (this w0))) []))
               (Fetch.wire_post "Bearer sk-..."
                  (build_Request (Main.model (this w0)) (Main.initialPrompt (this w0))
                                 "some note" "why?")));
    reflexivity.
Defined.

(* ================================================================= *)
(** ** The modal of the second variant *)

(** [query] of the variant runs as [query] of [src/main.ts] does on the
    same configuration. *)
Lemma variant_query_as_main
    (net : Transport) (context question : string) (c : Variant.OpenAIAPI)
    (log : list HttpRequest) :
  fst (Variant.query net context question (mkWorld c log))
    = fst (Main.query net context question (mkWorld (VariantPlugin.to_main c) log)) /\
  snd (Variant.query net context question (mkWorld c log))
    = mkWorld c (log ++ [post_for (VariantPlugin.to_main c) context question]).
Proof.
  rewrite post_for_eq. destruct c as [k m p].
  unfold VariantPlugin.to_main, Main.constructor. run_query.
  match goal with |- context [net ?h ?r] => destruct (net h r) as [resp | e] end;
    [ | repeat split ].
  destruct (ok resp); cbn [negb].
  - destruct (json_result resp) as [data | e]; [ | repeat split ].
    destruct (getProp (VJson data) K_choices) as [v1 | e]; [ | repeat split ].
    destruct (getProp v1 K_0) as [v2 | e]; [ | repeat split ].
    destruct (getProp v2 K_message) as [v3 | e]; [ | repeat split ].
    destruct (getProp v3 K_content) as [v4 | e]; repeat split.
  - destruct (json_result resp) as [data | e]; [ | repeat split ].
    destruct (getProp (VJson data) K_error) as [v1 | e]; [ | repeat split ].
    destruct (getProp v1 K_message) as [v2 | e]; [ | repeat split ].
    destruct (new_Error v2) as [err | e]; repeat split.
Qed.

Ltac run_vsubmit :=
  unfold VariantPlugin.on_keydown, VariantPlugin.on_click, VariantPlugin.submitPrompt,
    bind, read, VariantPlugin.modify, try_catch, VariantPlugin.on_openai,
    VariantPlugin.render_into_output, lift, ret;
  cbn [fst snd this sent VariantPlugin.current_file_content VariantPlugin.set_ui
       VariantPlugin.log VariantPlugin.ui VariantPlugin.textInput VariantPlugin.openai
       VariantPlugin.notices VariantPlugin.console VariantPlugin.clipboard
       VariantPlugin.on_outputContainer VariantPlugin.on_copyButtonContainer
       VariantPlugin.outputContainer VariantPlugin.copyButtonContainer
       VariantPlugin.copyButton VariantPlugin.inputContainer
       VariantPlugin.buttonContainer VariantPlugin.submitButton
       VariantPlugin.set_out_content VariantPlugin.out_content].

Section VariantSubmit.
Variable Content : Type.
Variable html : string -> Content.
Variable render : jsval -> Content -> Completion unit * Content.
Variable net : Transport.
Variable w : World (VariantPlugin.Session Content).

Lemma variant_submitted_world :
  snd (VariantPlugin.submitted_query net w) =
  mkWorld (VariantPlugin.openai (this w))
          (sent w ++ [post_for (VariantPlugin.to_main (VariantPlugin.openai (this w)))
                               (VariantPlugin.current_file_content (this w))
                               (VariantPlugin.prompt_of (this w))]).
Proof.
  unfold VariantPlugin.submitted_query. apply variant_query_as_main.
Qed.

Lemma variant_submit_binds_copy (v : jsval) :
  fst (VariantPlugin.submitted_query net w) = Resolved v ->
  fst (render v (html "")) = Resolved tt ->
  VariantPlugin.onclick
    (VariantPlugin.copyButton
       (VariantPlugin.ui (this (snd (VariantPlugin.submitPrompt html render net w)))))
    = Some v /\
  VariantPlugin.notices (this (snd (VariantPlugin.submitPrompt html render net w)))
    = VariantPlugin.notices (this w).
Proof.
  intros Hq Hr. pose proof variant_submitted_world as Hw.
  unfold VariantPlugin.submitted_query, VariantPlugin.prompt_of in *.
  run_vsubmit. rewrite Hq, Hw. cbn [this sent]. rewrite Hr.
  split; reflexivity.
Qed.

Lemma variant_submit_rejected_notices (e : JsError) :
  fst (VariantPlugin.submitted_query net w) = Rejected e ->
  VariantPlugin.notices (this (snd (VariantPlugin.submitPrompt html render net w)))
    = (VariantPlugin.notices (this w) ++ [("Error: " ++ message e)%string])%list.
Proof.
  intros Hq. pose proof variant_submitted_world as Hw.
  unfold VariantPlugin.submitted_query, VariantPlugin.prompt_of in *.
  run_vsubmit. rewrite Hq, Hw. reflexivity.
Qed.


(** X19: in the variant, when [query] rejects, or resolves with a response
    on which the markdown renderer fails, the user gets the notice
    [Error: ] with the message of the failure, and both the output
    container and the copy button are hidden; the copy button keeps the
    handler it had. *)
Theorem variant_submit_failure (e : JsError) :
  fst (VariantPlugin.submitted_query net w) = Rejected e \/
  (exists v, fst (VariantPlugin.submitted_query net w) = Resolved v /\
             fst (render v (html "")) = Rejected e) ->
  VariantPlugin.notices (this (snd (VariantPlugin.submitPrompt html render net w)))
    = (VariantPlugin.notices (this w) ++ [("Error: " ++ message e)%string])%list /\
  VariantPlugin.output_display (this (snd (VariantPlugin.submitPrompt html render net w)))
    = Some "none" /\
  VariantPlugin.copy_display (this (snd (VariantPlugin.submitPrompt html render net w)))
    = Some "none" /\
  VariantPlugin.onclick
    (VariantPlugin.copyButton
       (VariantPlugin.ui (this (snd (VariantPlugin.submitPrompt html render net w)))))
    = VariantPlugin.onclick (VariantPlugin.copyButton (VariantPlugin.ui (this w))).
Proof.
  intros H. pose proof variant_submitted_world as Hw.
  unfold VariantPlugin.submitted_query, VariantPlugin.prompt_of in *.
  run_vsubmit.
  destruct H as [Hq | (v & Hq & Hr)].
  - rewrite Hq, Hw. cbn [this sent].
    unfold VariantPlugin.output_display, VariantPlugin.copy_display. cbn.
    rewrite !prop_get_set. repeat split.
  - rewrite Hq, Hw. cbn [this sent]. rewrite Hr.
    unfold VariantPlugin.output_display, VariantPlugin.copy_display. cbn.
    rewrite !prop_get_set. repeat split.
Qed.

(** The submission of the variant sends the request that the submission
    of [src/main.ts] sends, and never rejects. *)
Lemma variant_submit_posts_once :
  fst (VariantPlugin.submitPrompt html render net w) = Resolved tt /\
  sent (snd (VariantPlugin.submitPrompt html render net w))
    = (sent w ++ [post_for (VariantPlugin.to_main (VariantPlugin.openai (this w)))
                           (VariantPlugin.current_file_content (this w))
                           (VariantPlugin.prompt_of (this w))])%list.
Proof.
  pose proof variant_submitted_world as Hw.
  unfold VariantPlugin.submitted_query, VariantPlugin.prompt_of in *.
  run_vsubmit.
  destruct (fst (Variant.query net _ _ _)) as [v | e]; rewrite Hw; cbn [this sent].
  - destruct (fst (render v (html ""))) as [ [] | e ]; split; reflexivity.
  - split; reflexivity.
Qed.
End VariantSubmit.

Lemma variant_sample_session_opened :
  exists s,
    VariantPlugin.sample_session = VariantPlugin.type_prompt "why?" s /\
    VariantPlugin.AskLLMModal_openai (Plugin.onload None) = Some (VariantPlugin.openai s) /\
    VariantPlugin.onOpen (fun markup => markup) (VariantPlugin.openai s)
                         (Some "some note") [] [] None = Some s.
Proof.
  exists (VariantPlugin.set_ui
            (fun u => VariantPlugin.mkUI
                        (VariantPlugin.inputContainer u)
                        (Plugin.set_value "" (VariantPlugin.textInput u))
                        (VariantPlugin.outputContainer u)
                        (VariantPlugin.copyButtonContainer u)
                        (VariantPlugin.copyButton u)
                        (VariantPlugin.buttonContainer u)
                        (VariantPlugin.submitButton u))
            VariantPlugin.sample_session).
  repeat split; reflexivity.
Qed.


Lemma variant_submit_failure_witness :
  VariantPlugin.notices
    (this (snd (VariantPlugin.submitPrompt (fun markup => markup)
                  VariantPlugin.sample_render
                  (always (Response_of 200 (Resolved body_no_content)))
                  (mkWorld VariantPlugin.sample_session []))))
    = ["Error: markdown is not a string"] /\
  VariantPlugin.output_display
    (this (snd (VariantPlugin.submitPrompt (fun markup => markup)
                  VariantPlugin.sample_render
                  (always (Response_of 200 (Resolved body_no_content)))
                  (mkWorld VariantPlugin.sample_session [])))) = Some "none" /\
  VariantPlugin.copy_display
    (this (snd (VariantPlugin.submitPrompt (fun markup => markup)
                  VariantPlugin.sample_render
                  (always (Response_of 200 (Resolved body_no_content)))
                  (mkWorld VariantPlugin.sample_session [])))) = Some "none" /\
  VariantPlugin.onclick
    (VariantPlugin.copyButton
       (VariantPlugin.ui
          (this (snd (VariantPlugin.submitPrompt (fun markup => markup)
                        VariantPlugin.sample_render
                        (always (Response_of 200 (Resolved body_no_content)))
                        (mkWorld VariantPlugin.sample_session []))))))
    = None.
Proof.
  apply (variant_submit_failure string (fun markup => markup)
           VariantPlugin.sample_render
           (always (Response_of 200 (Resolved body_no_content)))
           (mkWorld VariantPlugin.sample_session [])
           (mkJsError "TypeError" "markdown is not a string")).
  right. exists VUndefined. split; reflexivity.
Defined.

Ltac run_copy :=
  unfold VariantPlugin.on_copy_click, VariantPlugin.clipboard_writeText, bind, read,
    VariantPlugin.modify, ret;
  cbn [fst snd this sent].

Section VariantCopy.
Variable Content : Type.
Variable writeText : string -> Completion unit.
Variable w : World (VariantPlugin.Session Content).

Lemma copy_click_writes (v : jsval) (text : string) :
  VariantPlugin.onclick (VariantPlugin.copyButton (VariantPlugin.ui (this w))) = Some v ->
  VariantPlugin.to_DOMString v = Resolved text ->
  writeText text = Resolved tt ->
  VariantPlugin.clipboard (this (snd (VariantPlugin.on_copy_click writeText w)))
    = Some text /\
  VariantPlugin.notices (this (snd (VariantPlugin.on_copy_click writeText w)))
    = (VariantPlugin.notices (this w) ++ ["Copied to clipboard!"])%list.
Proof.
  intros Honclick Htext Hclip. run_copy. rewrite Honclick, Htext, Hclip.
  split; reflexivity.
Qed.

(** X20: a click on the copy button does nothing before the first
    successful submission.  Once a response is bound to the button, the
    click writes the text of that response to the clipboard and then shows
    the notice [Copied to clipboard!]; when the clipboard refuses, the
    click fails and shows no notice. *)
Theorem variant_copy_click :
  (VariantPlugin.onclick (VariantPlugin.copyButton (VariantPlugin.ui (this w))) = None ->
     VariantPlugin.on_copy_click writeText w = (Resolved tt, w)) /\
  (forall v text,
     VariantPlugin.onclick (VariantPlugin.copyButton (VariantPlugin.ui (this w))) = Some v ->
     VariantPlugin.to_DOMString v = Resolved text ->
     writeText text = Resolved tt ->
     fst (VariantPlugin.on_copy_click writeText w) = Resolved tt /\
     VariantPlugin.clipboard (this (snd (VariantPlugin.on_copy_click writeText w)))
       = Some text /\
     VariantPlugin.notices (this (snd (VariantPlugin.on_copy_click writeText w)))
       = (VariantPlugin.notices (this w) ++ ["Copied to clipboard!"])%list) /\
  (forall v text e,
     VariantPlugin.onclick (VariantPlugin.copyButton (VariantPlugin.ui (this w))) = Some v ->
     VariantPlugin.to_DOMString v = Resolved text ->
     writeText text = Rejected e ->
     VariantPlugin.on_copy_click writeText w = (Rejected e, w)).
Proof.
  repeat split.
  - intros H. run_copy. rewrite H. now destruct w.
  - run_copy. rewrite H, H0, H1. reflexivity.
  - run_copy. rewrite H, H0, H1. reflexivity.
  - run_copy. rewrite H, H0, H1. reflexivity.
  - intros v text e H H0 H1. run_copy. rewrite H, H0, H1. now destruct w.
Qed.
End VariantCopy.

Section VariantEndToEnd.
Variable Content : Type.
Variable html : string -> Content.
Variable render : jsval -> Content -> Completion unit * Content.
Variable writeText : string -> Completion unit.
Variable net : Transport.
Variable w : World (VariantPlugin.Session Content).

Lemma variant_submitted_outcome :
  fst (VariantPlugin.submitted_query net w)
    = fst (Main.query net (VariantPlugin.current_file_content (this w))
             (VariantPlugin.prompt_of (this w))
             (mkWorld (VariantPlugin.to_main (VariantPlugin.openai (this w))) (sent w))).
Proof. unfold VariantPlugin.submitted_query. apply variant_query_as_main. Qed.

(** X21: in the variant, an answer goes from the wire to the clipboard
    unchanged: when the transport answers a submission with a success
    status and a body whose first message has the string [text] as content,
    and the renderer and the clipboard accept it, a click on the copy
    button after the submission leaves [text] in the clipboard and shows
    the notice [Copied to clipboard!] as the only notice of the two
    steps. *)
Theorem variant_answer_reaches_clipboard (resp : Response) (data : json) (text : string) :
  net (sent w) (post_for (VariantPlugin.to_main (VariantPlugin.openai (this w)))
                         (VariantPlugin.current_file_content (this w))
                         (VariantPlugin.prompt_of (this w))) = Resolved resp ->
  ok resp = true ->
  json_result resp = Resolved data ->
  nullish (message_of data) = false ->
  content_of data = VJson (JStr text) ->
  fst (render (VJson (JStr text)) (html "")) = Resolved tt ->
  writeText text = Resolved tt ->
  VariantPlugin.clipboard
    (this (snd (VariantPlugin.on_copy_click writeText
                  (snd (VariantPlugin.on_click html render net w))))) = Some text /\
  VariantPlugin.notices
    (this (snd (VariantPlugin.on_copy_click writeText
                  (snd (VariantPlugin.on_click html render net w)))))
    = (VariantPlugin.notices (this w) ++ ["Copied to clipboard!"])%list.
Proof.
  intros Hnet Hok Hjson Hshape Hcontent Hrender Hclip.
  assert (Hq : fst (VariantPlugin.submitted_query net w) = Resolved (VJson (JStr text))).
  { rewrite variant_submitted_outcome.
    rewrite (@query_success net _ _
               (mkWorld (VariantPlugin.to_main (VariantPlugin.openai (this w))) (sent w))
               resp Hnet data Hok Hjson).
    rewrite (read_content_readable data Hshape). now rewrite Hcontent. }
  destruct (variant_submit_binds_copy Content html render net w _ Hq Hrender)
    as (Honclick & Hnotices).
  unfold VariantPlugin.on_click.
  destruct (copy_click_writes Content writeText
              (snd (VariantPlugin.submitPrompt html render net w))
              (VJson (JStr text)) text Honclick eq_refl Hclip)
    as (Hclipboard & Hnotes).
  split; [ exact Hclipboard | ]. now rewrite Hnotes, Hnotices.
Qed.

(** X22: the two modals differ in presentation only.  On the same
    configuration, document text, prompt and history of requests, a
    submission in the variant sends the request that a submission in
    [src/main.ts] sends and its [query] settles alike; when that [query]
    rejects, both show the same notice. *)
Theorem modals_agree (wm : World Plugin.Session) :
  VariantPlugin.to_main (VariantPlugin.openai (this w)) = Plugin.openai (this wm) ->
  VariantPlugin.current_file_content (this w) = Plugin.current_file_content (this wm) ->
  VariantPlugin.prompt_of (this w) = Plugin.prompt_of (this wm) ->
  sent w = sent wm ->
  sent (snd (VariantPlugin.submitPrompt html render net w))
    = sent (snd (Plugin.submitPrompt net wm)) /\
  fst (VariantPlugin.submitted_query net w) = fst (Plugin.submitted_query net wm) /\
  (forall e,
     fst (Plugin.submitted_query net wm) = Rejected e ->
     VariantPlugin.notices (this w) = Plugin.notices (this wm) ->
     VariantPlugin.notices (this (snd (VariantPlugin.submitPrompt html render net w)))
       = Plugin.notices (this (snd (Plugin.submitPrompt net wm)))).
Proof.
  intros Hclient Hcontent Hprompt Hsent.
  assert (Hq : fst (VariantPlugin.submitted_query net w)
               = fst (Plugin.submitted_query net wm)).
  { rewrite variant_submitted_outcome. unfold Plugin.submitted_query.
    now rewrite Hclient, Hcontent, Hprompt, Hsent. }
  split; [ | split ].
  - rewrite (proj2 (variant_submit_posts_once Content html render net w)).
    rewrite (proj2 (submit_settles net wm)). unfold Plugin.submitted_post.
    now rewrite Hclient, Hcontent, Hprompt, Hsent.
  - exact Hq.
  - intros e He Hnotes.
    rewrite (submit_rejected_notices net wm e He).
    rewrite He in Hq.
    rewrite (variant_submit_rejected_notices Content html render net w e Hq).
    now rewrite Hnotes.
Qed.
End VariantEndToEnd.

Lemma variant_answer_reaches_clipboard_witness :
  VariantPlugin.clipboard
    (this (snd (VariantPlugin.on_copy_click (fun _ => Resolved tt)
                  (snd (VariantPlugin.on_click (fun markup => markup)
                          VariantPlugin.sample_render
                          (always (Response_of 200 (Resolved body_42)))
                          (mkWorld VariantPlugin.sample_session [])))))) = Some "42" /\
  VariantPlugin.notices
    (this (snd (VariantPlugin.on_copy_click (fun _ => Resolved tt)
                  (snd (VariantPlugin.on_click (fun markup => markup)
                          VariantPlugin.sample_render
                          (always (Response_of 200 (Resolved body_42)))
                          (mkWorld VariantPlugin.sample_session []))))))
    = ["Copied to clipboard!"].
Proof.
  apply (variant_answer_reaches_clipboard string (fun markup => markup)
           VariantPlugin.sample_render (fun _ => Resolved tt)
           (always (Response_of 200 (Resolved body_42)))
           (mkWorld VariantPlugin.sample_session [])
           (Response_of 200 (Resolved body_42)) body_42 "42");
    reflexivity.
Defined.

Lemma modals_agree_witness :
  sent (snd (VariantPlugin.submitPrompt (fun markup => markup)
               VariantPlugin.sample_render
               (always (Response_of 401 (Resolved body_invalid_api_key)))
               (mkWorld VariantPlugin.sample_session [])))
    = sent (snd (Plugin.submitPrompt
                   (always (Response_of 401 (Resolved body_invalid_api_key)))
                   (mkWorld Plugin.sample_session []))) /\
  VariantPlugin.notices
    (this (snd (VariantPlugin.submitPrompt (fun markup => markup)
                  VariantPlugin.sample_render
                  (always (Response_of 401 (Resolved body_invalid_api_key)))
                  (mkWorld VariantPlugin.sample_session []))))
    = Plugin.notices
        (this (snd (Plugin.submitPrompt
                      (always (Response_of 401 (Resolved body_invalid_api_key)))
                      (mkWorld Plugin.sample_session [])))).
Proof.
  destruct (modals_agree string (fun markup => markup) VariantPlugin.sample_render
              (always (Response_of 401 (Resolved body_invalid_api_key)))
              (mkWorld VariantPlugin.sample_session [])
              (mkWorld Plugin.sample_session [])
              eq_refl eq_refl eq_refl eq_refl) as (Hsent & _ & Hnotes).
  split; [ exact Hsent | ].
  apply (Hnotes (mkJsError "Error" "invalid_api_key")); reflexivity.
Defined.

Lemma keydown_submits_on_enter_witness :
  Plugin.on_keydown (always (Response_of 200 (Resolved body_42)))
                    (Plugin.mkKeyboardEvent "Enter" false)
                    (mkWorld Plugin.sample_session [])
    = (Resolved true,
       snd (Plugin.on_click (always (Response_of 200 (Resolved body_42)))
                            (mkWorld Plugin.sample_session []))) /\
  Plugin.on_keydown (always (Response_of 200 (Resolved body_42)))
                    (Plugin.mkKeyboardEvent "Enter" true)
                    (mkWorld Plugin.sample_session [])
    = (Resolved false, mkWorld Plugin.sample_session []).
Proof.
  split.
  - apply (proj1 (keydown_submits_on_enter
                    (always (Response_of 200 (Resolved body_42)))
                    (mkWorld Plugin.sample_session [])
                    (Plugin.mkKeyboardEvent "Enter" false)));
      reflexivity.
  - apply (proj2 (keydown_submits_on_enter
                    (always (Response_of 200 (Resolved body_42)))
                    (mkWorld Plugin.sample_session [])
                    (Plugin.mkKeyboardEvent "Enter" true))).
    right. reflexivity.
Defined.

Lemma variant_copy_click_witness :
  VariantPlugin.on_copy_click (fun _ => Resolved tt)
                              (mkWorld VariantPlugin.sample_session [])
    = (Resolved tt, mkWorld VariantPlugin.sample_session []).
Proof.
  apply (proj1 (variant_copy_click string (fun _ => Resolved tt)
                  (mkWorld VariantPlugin.sample_session []))).
  reflexivity.
Defined.
